(** * Form validation of the case-study screens

    A shallow embedding of the validation logic of

      - [src/app/casestudies/create/NowThenFrame.tsx]
        (the "Before -> After" case-study form), and
      - [src/app/wizard1.tsx] (first question of the wizard),

    together with the properties the specification states about them.

    React components are modelled by explicit state passing: the values
    held by [useState] are the fields of a record, a setter is a record
    update, an event handler is a computation in a small state-and-trace
    monad whose trace lists the calls made to the host ([Alert.alert],
    [console.log], the router), and the [useEffect] hook is a state
    transformer that the render loop runs on mount and whenever one of its
    dependencies has changed. *)

From Stdlib Require Import List Arith NArith ZArith Bool Lia String.
From Stdlib Require Import Floats.SpecFloat.
Import ListNotations.

(* ===================================================================== *)
(** ** JavaScript strings and values *)
(* ===================================================================== *)

Module JS.

(** A JavaScript string is a sequence of UTF-16 code units, and [.length]
    counts code units. *)
Definition code_unit : Type := N.
Definition jsstring : Type := list code_unit.

Definition length (s : jsstring) : nat := List.length s.

(** [''] *)
Definition empty : jsstring := [].

(** [s + t] *)
Definition concat (s t : jsstring) : jsstring := s ++ t.

(** Strict equality of two strings. *)
Fixpoint eqb (s t : jsstring) : bool :=
  match s, t with
  | [], [] => true
  | c :: s', d :: t' => (c =? d)%N && eqb s' t'
  | _, _ => false
  end.

(** ToBoolean on a string: only the empty string is falsy. *)
Definition truthy (s : jsstring) : bool :=
  match s with
  | [] => false
  | _ :: _ => true
  end.

(** ECMAScript WhiteSpace and LineTerminator code points; all of them lie
    in the basic plane, so each is one code unit. *)
Definition isWhiteSpace (c : code_unit) : bool :=
  ((c =? 0x09) || (c =? 0x0A) || (c =? 0x0B) || (c =? 0x0C) || (c =? 0x0D)
   || (c =? 0x20) || (c =? 0xA0) || (c =? 0x1680)
   || ((0x2000 <=? c) && (c <=? 0x200A))
   || (c =? 0x2028) || (c =? 0x2029) || (c =? 0x202F) || (c =? 0x205F)
   || (c =? 0x3000) || (c =? 0xFEFF))%N.

Fixpoint dropWhile (p : code_unit -> bool) (s : jsstring) : jsstring :=
  match s with
  | [] => []
  | c :: s' => if p c then dropWhile p s' else s
  end.

(** [String.prototype.trimStart], [trimEnd] and [trim]. *)
Definition trimStart (s : jsstring) : jsstring := dropWhile isWhiteSpace s.
Definition trimEnd (s : jsstring) : jsstring :=
  rev (dropWhile isWhiteSpace (rev s)).
Definition trim (s : jsstring) : jsstring := trimEnd (trimStart s).

(** The values a text slot can hold once types are erased.  [Obj] stands
    for an array, a function or another object, with the natural number
    its [length] property holds, if it holds one. *)
Inductive value : Type :=
| Undefined
| Null
| Bool (b : bool)
| Num (x : spec_float)
| Str (s : jsstring)
| Obj (length : option nat).

(** Reading [v.length].  On [undefined] and [null] the property access
    throws a [TypeError], which is the outer [None]; on a boolean or a
    number the property is missing and the read gives [undefined], the
    inner [None]. *)
Definition get_length (v : value) : option (option nat) :=
  match v with
  | Undefined | Null => None
  | Bool _ | Num _ => Some None
  | Str s => Some (Some (length s))
  | Obj l => Some l
  end.

(** [Array.prototype.some]. *)
Definition some {A : Type} (p : A -> bool) (l : list A) : bool := existsb p l.

End JS.

Import JS.

(* ===================================================================== *)
(** ** JavaScript numbers *)
(* ===================================================================== *)

(** A Number is an IEEE 754 binary64 value; the operations are those of the
    library's specification of floating-point arithmetic at precision 53
    and exponent bound 1024, with rounding to nearest, ties to even. *)
Module Number.

Definition prec : Z := 53.
Definition emax : Z := 1024.

Definition t : Type := spec_float.

(** The Number of a natural number, such as the value of [.length] or an
    integer literal. *)
Definition ofNat (n : nat) : t :=
  binary_normalize prec emax (Z.of_nat n) 0 false.

(** The literal [1]. *)
Definition one : t := Eval cbv in ofNat 1.

(** [x / y] and [x * y] *)
Definition div (x y : t) : t := SFdiv prec emax x y.
Definition mul (x y : t) : t := SFmul prec emax x y.

(** [x >= y]: false as soon as one side is NaN. *)
Definition ge (x y : t) : bool := SFleb y x.

(** [x > y] *)
Definition gt (x y : t) : bool := SFltb y x.

(** [Math.min(x, y)]: NaN if either is NaN, and -0 counts as below +0. *)
Definition Math_min (x y : t) : t :=
  match x, y with
  | S754_nan, _ | _, S754_nan => S754_nan
  | S754_zero false, S754_zero true => y
  | _, _ => if SFltb y x then y else x
  end.

(** The largest length a string can have, [2^53 - 1]; every natural
    number up to it is a Number. *)
Definition MAX_SAFE_INTEGER : Z := 2 ^ 53 - 1.

(** [2^52] and [2^53], the bounds of a 53-bit mantissa. *)
Definition two52 : Z := 4503599627370496.
Definition two53 : Z := 9007199254740992.

End Number.

(* ===================================================================== *)
(** ** Calls to the host *)
(* ===================================================================== *)

Inductive Navigation : Type :=
| router_push (path : string)
| router_back.

Record AlertButton : Type := mkButton
  { text : string;
    onPress : list Navigation }.

Inductive HostCall : Type :=
| Alert_alert (title message : string) (buttons : list AlertButton)
| console_log (label : string) (arg : jsstring)
| navigate (n : Navigation).

(** Event handlers: read and update the component state, log host calls. *)
Module Handler.

Definition t (S A : Type) : Type := S -> A * S * list HostCall.

Definition ret {S A} (a : A) : t S A := fun s => (a, s, []).

Definition bind {S A B} (m : t S A) (k : A -> t S B) : t S B :=
  fun s =>
    let '(a, s1, c1) := m s in
    let '(b, s2, c2) := k a s1 in
    (b, s2, c1 ++ c2).

Definition read {S A} (proj : S -> A) : t S A := fun s => (proj s, s, []).

Definition update {S} (f : S -> S) : t S unit := fun s => (tt, f s, []).

Definition call {S} (c : HostCall) : t S unit := fun s => (tt, s, [c]).

Definition state_of {S A} (r : A * S * list HostCall) : S := snd (fst r).
Definition calls_of {S A} (r : A * S * list HostCall) : list HostCall := snd r.

End Handler.

Declare Scope handler_scope.
Delimit Scope handler_scope with handler.
Notation "x <- m ;; k" := (Handler.bind m (fun x => k))
  (at level 61, m at next level, right associativity) : handler_scope.
Notation "m ;; k" := (Handler.bind m (fun _ => k))
  (at level 61, right associativity) : handler_scope.

(* ===================================================================== *)
(** ** NowThenFrame.tsx *)
(* ===================================================================== *)

Module NowThenFrame.

(** The shape of [MIN_CHARS]. *)
Module MinChars.
Record t : Type := mk
  { headline : nat;
    initialSituation : nat;
    implementation : nat;
    results : nat }.
End MinChars.

(** [const MIN_CHARS = { headline: 30, initialSituation: 200,
    implementation: 300, results: 150 }] *)
Definition MIN_CHARS : MinChars.t :=
  {| MinChars.headline := 30;
     MinChars.initialSituation := 200;
     MinChars.implementation := 300;
     MinChars.results := 150 |}.

(** The shape of the [errors] object. It has no entry for the ROI. *)
Module Errors.
Record t : Type := mk
  { headline : bool;
    initialSituation : bool;
    implementation : bool;
    results : bool }.
End Errors.

(** [Object.values] lists the own properties in insertion order. *)
Definition Object_values (e : Errors.t) : list bool :=
  [Errors.headline e; Errors.initialSituation e;
   Errors.implementation e; Errors.results e].

(** The [useState] slots of [NowThenFrameScreen]. *)
Record State : Type := mkState
  { headline : jsstring;
    initialSituation : jsstring;
    implementation : jsstring;
    results : jsstring;
    roi : jsstring;
    contextModalVisible : bool;
    contextForOlivia : jsstring;
    errors : Errors.t;
    isValid : bool }.

(** The initial values given to [useState]. *)
Definition initialState : State :=
  {| headline := JS.empty;
     initialSituation := JS.empty;
     implementation := JS.empty;
     results := JS.empty;
     roi := JS.empty;
     contextModalVisible := false;
     contextForOlivia := JS.empty;
     errors := Errors.mk false false false false;
     isValid := false |}.

(** The setters returned by [useState]. *)
Definition setHeadline (v : jsstring) (st : State) : State :=
  mkState v (initialSituation st) (implementation st) (results st) (roi st)
    (contextModalVisible st) (contextForOlivia st) (errors st) (isValid st).
Definition setInitialSituation (v : jsstring) (st : State) : State :=
  mkState (headline st) v (implementation st) (results st) (roi st)
    (contextModalVisible st) (contextForOlivia st) (errors st) (isValid st).
Definition setImplementation (v : jsstring) (st : State) : State :=
  mkState (headline st) (initialSituation st) v (results st) (roi st)
    (contextModalVisible st) (contextForOlivia st) (errors st) (isValid st).
Definition setResults (v : jsstring) (st : State) : State :=
  mkState (headline st) (initialSituation st) (implementation st) v (roi st)
    (contextModalVisible st) (contextForOlivia st) (errors st) (isValid st).
Definition setRoi (v : jsstring) (st : State) : State :=
  mkState (headline st) (initialSituation st) (implementation st)
    (results st) v
    (contextModalVisible st) (contextForOlivia st) (errors st) (isValid st).
Definition setContextModalVisible (v : bool) (st : State) : State :=
  mkState (headline st) (initialSituation st) (implementation st)
    (results st) (roi st) v (contextForOlivia st) (errors st) (isValid st).
Definition setContextForOlivia (v : jsstring) (st : State) : State :=
  mkState (headline st) (initialSituation st) (implementation st)
    (results st) (roi st) (contextModalVisible st) v (errors st) (isValid st).
Definition setErrors (v : Errors.t) (st : State) : State :=
  mkState (headline st) (initialSituation st) (implementation st)
    (results st) (roi st) (contextModalVisible st) (contextForOlivia st)
    v (isValid st).
Definition setIsValid (v : bool) (st : State) : State :=
  mkState (headline st) (initialSituation st) (implementation st)
    (results st) (roi st) (contextModalVisible st) (contextForOlivia st)
    (errors st) v.

(** *** The validation effect

    The thresholds are a parameter [mc] of the definitions; the screen
    runs them at [MIN_CHARS]. *)

(** [const newErrors = { headline: headline.length < MIN_CHARS.headline,
    ... }] *)
Definition newErrors (mc : MinChars.t) (st : State) : Errors.t :=
  {| Errors.headline :=
       JS.length (headline st) <? MinChars.headline mc;
     Errors.initialSituation :=
       JS.length (initialSituation st) <? MinChars.initialSituation mc;
     Errors.implementation :=
       JS.length (implementation st) <? MinChars.implementation mc;
     Errors.results :=
       JS.length (results st) <? MinChars.results mc |}.

(** The body of the [useEffect]:
    [setErrors(newErrors);
     setIsValid(!Object.values(newErrors).some(error => error));] *)
Definition validationEffect (mc : MinChars.t) (st : State) : State :=
  let newErrors := newErrors mc st in
  setIsValid (negb (JS.some (fun error => error) (Object_values newErrors)))
    (setErrors newErrors st).

(** The dependency array [[headline, initialSituation, implementation,
    results]], compared slot by slot between two renders. *)
Definition deps (st : State) : list jsstring :=
  [headline st; initialSituation st; implementation st; results st].

Definition depsChanged (prev next : State) : bool :=
  negb (forallb (fun p => JS.eqb (fst p) (snd p))
          (combine (deps prev) (deps next))).

(** *** Names for the validated fields

    The four keys shared by [MIN_CHARS] and [errors]. *)
Inductive field : Type :=
| Headline
| InitialSituation
| Implementation
| Results.

Definition requiredFields : list field :=
  [Headline; InitialSituation; Implementation; Results].

Definition content (f : field) (st : State) : jsstring :=
  match f with
  | Headline => headline st
  | InitialSituation => initialSituation st
  | Implementation => implementation st
  | Results => results st
  end.

Definition threshold (f : field) (mc : MinChars.t) : nat :=
  match f with
  | Headline => MinChars.headline mc
  | InitialSituation => MinChars.initialSituation mc
  | Implementation => MinChars.implementation mc
  | Results => MinChars.results mc
  end.

Definition errorFlag (f : field) (st : State) : bool :=
  match f with
  | Headline => Errors.headline (errors st)
  | InitialSituation => Errors.initialSituation (errors st)
  | Implementation => Errors.implementation (errors st)
  | Results => Errors.results (errors st)
  end.

(** A field is satisfied when its error flag is off. *)
Definition satisfied (f : field) (st : State) : bool := negb (errorFlag f st).

Definition setContent (f : field) (v : jsstring) (st : State) : State :=
  match f with
  | Headline => setHeadline v st
  | InitialSituation => setInitialSituation v st
  | Implementation => setImplementation v st
  | Results => setResults v st
  end.

(** The validation state: the error flags and the aggregate. *)
Definition validationState (st : State) : Errors.t * bool :=
  (errors st, isValid st).

(** *** Handlers *)

Import Handler.
Local Open Scope handler_scope.
Local Open Scope string_scope.

(** [handleSubmit] *)
Definition handleSubmit : Handler.t State unit :=
  valid <- read isValid ;;
  if (valid : bool) then
    (* Here the data would be saved/sent *)
    call (Alert_alert "Success"
            "Your case study has been created successfully!"
            [ {| text := "OK"; onPress := [router_push "/"] |} ])
  else
    (* no button list is passed *)
    call (Alert_alert "Incomplete inputs"
            "Please fill all fields with the minimum number of characters."
            []).

(** [handleContextForOlivia], [handleContextSave], [handleContextClose] *)
Definition handleContextForOlivia : Handler.t State unit :=
  update (setContextModalVisible true).
Definition handleContextSave (context : jsstring) : Handler.t State unit :=
  update (setContextForOlivia context).
Definition handleContextClose : Handler.t State unit :=
  update (setContextModalVisible false).

(** *** The render loop *)

Inductive Event : Type :=
| ChangeText (f : field) (v : jsstring)   (* onChangeText of a field *)
| ChangeRoi (v : jsstring)                (* onChangeText of the ROI *)
| PressContext
| ContextSave (context : jsstring)
| ContextClose
| PressSave                               (* runs handleSubmit *)
| PressBack.

Definition handle (ev : Event) : Handler.t State unit :=
  match ev with
  | ChangeText f v => update (setContent f v)
  | ChangeRoi v => update (setRoi v)
  | PressContext => handleContextForOlivia
  | ContextSave c => handleContextSave c
  | ContextClose => handleContextClose
  | PressSave => handleSubmit
  | PressBack => call (navigate router_back)
  end.

(** After a handler has run the component renders again, and the effect
    runs when one of its dependencies differs from the previous render.
    [commit] and [step] give the state once that effect has run; the
    render React commits in between, with the new contents and the flags
    of the previous render, is [Render.committed] below. *)
Definition commit (mc : MinChars.t) (prev next : State) : State :=
  if depsChanged prev next then validationEffect mc next else next.

Definition step (mc : MinChars.t) (ev : Event) (st : State)
  : State * list HostCall :=
  let r := handle ev st in
  (commit mc st (state_of r), calls_of r).

(** The first render: every effect runs once. *)
Definition mount (mc : MinChars.t) : State := validationEffect mc initialState.

Fixpoint run (mc : MinChars.t) (evs : list Event) (st : State) : State :=
  match evs with
  | [] => st
  | ev :: evs' => run mc evs' (fst (step mc ev st))
  end.

(** The states the validation effect leaves behind. *)
Definition validated (mc : MinChars.t) (st : State) : Prop :=
  validationState st = validationState (validationEffect mc st).

(** *** The progress bar of a field *)

Inductive Color : Type :=
| colors_success
| colors_primary.

Record ProgressBar : Type := mkProgressBar
  { widthPercent : Number.t;
    backgroundColor : Color }.

(** [const progress = Math.min(currentLength / minChars, 1);] *)
Definition progress (currentLength minChars : Number.t) : Number.t :=
  Number.Math_min (Number.div currentLength minChars) Number.one.

(** [renderCharacterProgress]: the bar is [progress * 100] percent wide
    and takes the success colour when [progress >= 1]. *)
Definition renderCharacterProgress (currentLength minChars : Number.t)
  : ProgressBar :=
  let progress := progress currentLength minChars in
  {| widthPercent := Number.mul progress (Number.ofNat 100);
     backgroundColor :=
       if Number.ge progress Number.one then colors_success
       else colors_primary |}.

(** [renderInputField] passes [value.length] and the field's entry of
    [MIN_CHARS]. *)
Definition fieldProgressBar (mc : MinChars.t) (f : field) (st : State)
  : ProgressBar :=
  renderCharacterProgress (Number.ofNat (JS.length (content f st)))
                          (Number.ofNat (threshold f mc)).

End NowThenFrame.

(* ===================================================================== *)
(** ** The validation effect with types erased *)
(* ===================================================================== *)

(** TypeScript gives the four text slots the type [string]; at run time
    nothing enforces it.  This is the effect's computation on slots that
    hold arbitrary values, where reading [.length] can throw, and the
    slots as the screen fills them: with [''] at first, then with the
    strings [onChangeText] delivers. *)
Module Erased.

Import NowThenFrame.

Record Snapshot : Type := mkSnapshot
  { headline : JS.value;
    initialSituation : JS.value;
    implementation : JS.value;
    results : JS.value }.

(** [v.length < min]: against [undefined] the comparison is false. *)
Definition lessThan (len : option (option nat)) (min : nat) : option bool :=
  match len with
  | Some (Some n) => Some (n <? min)
  | Some None => Some false
  | None => None
  end.

(** The object literal evaluates its properties in order; the first
    access that throws aborts the effect. *)
Definition newErrors (mc : MinChars.t) (s : Snapshot) : option Errors.t :=
  match lessThan (JS.get_length (headline s)) (MinChars.headline mc) with
  | None => None
  | Some e1 =>
    match lessThan (JS.get_length (initialSituation s))
                   (MinChars.initialSituation mc) with
    | None => None
    | Some e2 =>
      match lessThan (JS.get_length (implementation s))
                     (MinChars.implementation mc) with
      | None => None
      | Some e3 =>
        match lessThan (JS.get_length (results s))
                       (MinChars.results mc) with
        | None => None
        | Some e4 => Some (Errors.mk e1 e2 e3 e4)
        end
      end
    end
  end.





Definition setSlot (f : field) (v : JS.value) (s : Snapshot) : Snapshot :=
  match f with
  | Headline => mkSnapshot v (initialSituation s) (implementation s) (results s)
  | InitialSituation => mkSnapshot (headline s) v (implementation s) (results s)
  | Implementation => mkSnapshot (headline s) (initialSituation s) v (results s)
  | Results => mkSnapshot (headline s) (initialSituation s) (implementation s) v
  end.

(** The slots after a list of events: [onChangeText] of a field stores
    the string it delivers, no other event writes a slot. *)
Fixpoint after (evs : list Event) (s : Snapshot) : Snapshot :=
  match evs with
  | [] => s
  | ChangeText f v :: evs' => after evs' (setSlot f (JS.Str v) s)
  | _ :: evs' => after evs' s
  end.


End Erased.

(* ===================================================================== *)
(** ** wizard1.tsx *)
(* ===================================================================== *)

Module Wizard1.

Import Handler.
Local Open Scope handler_scope.
Local Open Scope string_scope.

Record State : Type := mkState
  { answer : jsstring;
    keyboardHeight : Number.t }.

Definition initialState : State :=
  {| answer := JS.empty; keyboardHeight := Number.ofNat 0 |}.

Definition setAnswer (v : jsstring) (st : State) : State :=
  mkState v (keyboardHeight st).

(** [handleNext]: [if (answer.trim()) { console.log('Antwort:', answer); }] *)
Definition handleNext : Handler.t State unit :=
  a <- read answer ;;
  if JS.truthy (JS.trim a) then call (console_log "Antwort:" a)
  else ret tt.

(** [const isValid = answer.trim().length > 0;] *)
Definition isValid (st : State) : bool :=
  (0 <? JS.length (JS.trim (answer st)))%nat.

(** The "Next" button: [onPress={handleNext} disabled={!isValid}]. *)
Definition nextDisabled (st : State) : bool := negb (isValid st).

(** Pressing the button: a disabled touchable ignores the press. *)
Definition pressNext : Handler.t State unit :=
  fun st => if nextDisabled st then ret tt st else handleNext st.

End Wizard1.

(* ===================================================================== *)
(** ** Sample data *)
(* ===================================================================== *)

Module Sample.

Import NowThenFrame.

(** A content of [n] copies of one code unit. *)
Definition filled (c : code_unit) (n : nat) : jsstring := repeat c n.

(** The form after the four required fields were typed with exactly the
    minimum number of letters, the ROI left empty. *)
Definition typedWith (c : code_unit) : State :=
  run MIN_CHARS
    [ChangeText Headline (filled c 30);
     ChangeText InitialSituation (filled c 200);
     ChangeText Implementation (filled c 300);
     ChangeText Results (filled c 150)]
    (mount MIN_CHARS).

(** As above, with the initial situation one letter short. *)
Definition oneShort : State :=
  run MIN_CHARS
    [ChangeText Headline (filled 97%N 30);
     ChangeText InitialSituation (filled 97%N 199);
     ChangeText Implementation (filled 97%N 300);
     ChangeText Results (filled 97%N 150)]
    (mount MIN_CHARS).

(** The two notices of [handleSubmit]. *)
Definition successNotice : HostCall :=
  Alert_alert "Success" "Your case study has been created successfully!"
    [ {| text := "OK"; onPress := [router_push "/"] |} ].

Definition incompleteNotice : HostCall :=
  Alert_alert "Incomplete inputs"
    "Please fill all fields with the minimum number of characters." [].

(** Everything the user typed into the form. *)
Definition rawContents (st : State) : list jsstring :=
  [headline st; initialSituation st; implementation st; results st; roi st].

End Sample.

(* ===================================================================== *)
(** ** The rest of the screens *)
(* ===================================================================== *)

(** A call [t(key)] or [t(key, defaultValue)] of the translation function;
    what it returns depends on the language resources, so the call is kept
    as it is written. *)
Inductive Translated : Type :=
| t_ (key : string) (defaultValue : option string).

(** *** NowThenFrame.tsx: the renders between an event and its effect *)

Module Render.

Import NowThenFrame.

(** The render React commits once a handler has run and before the
    validation effect has: the handler's writes are in, [errors] and
    [isValid] are those of the render before.  The effect is flushed
    before the next event is handled, which gives [step]. *)
Definition committed (ev : Event) (st : State) : State :=
  Handler.state_of (handle ev st).

End Render.

(** *** NowThenFrame.tsx: the keyboard toolbar *)

Module Toolbar.

Import NowThenFrame.
Local Open Scope string_scope.

(** A [ToolbarAction]; [disabled] is optional. *)
Record ToolbarAction : Type := mkAction
  { id : string;
    icon : string;
    label : Translated;
    onPress : Handler.t State unit;
    disabled : option bool;
    accessibilityLabel : Translated }.

(** [const toolbarActions: ToolbarAction[] = [ ... ]], built on each
    render from the current [isValid]. *)
Definition toolbarActions (st : State) : list ToolbarAction :=
  [ {| id := "context";
       icon := "information-circle-outline";
       label := t_ "casestudy.contextModal.title" None;
       onPress := handleContextForOlivia;
       disabled := None;
       accessibilityLabel := t_ "casestudy.contextModal.title" None |};
    {| id := "save";
       icon := "checkmark-circle-outline";
       label := t_ "casestudy.toolbar.save" None;
       onPress := handleSubmit;
       disabled := Some (negb (isValid st));
       accessibilityLabel := t_ "casestudy.toolbar.save" None |} ].

(** The action with a given id. *)
Definition action (name : string) (st : State) : option ToolbarAction :=
  find (fun a => String.eqb (id a) name) (toolbarActions st).

(** The context a [ContextSave] in a list of events leaves, the last one
    winning. *)
Fixpoint lastSaved (evs : list Event) (current : jsstring) : jsstring :=
  match evs with
  | [] => current
  | ContextSave c :: evs' => lastSaved evs' c
  | _ :: evs' => lastSaved evs' current
  end.

End Toolbar.

(** *** wizard1.tsx: keyboard, back and the layout that follows them *)

Module Wizard1View.

Import Handler Wizard1.

Definition setKeyboardHeight (v : Number.t) (st : State) : State :=
  mkState (answer st) v.

(** The two keyboard listeners of the mount effect; the height is the
    Number [e.endCoordinates.height]. *)
Definition keyboardDidShow (height : Number.t) : Handler.t State unit :=
  update (setKeyboardHeight height).
Definition keyboardDidHide : Handler.t State unit :=
  update (setKeyboardHeight (Number.ofNat 0)).

(** [handleBack] *)
Definition handleBack : Handler.t State unit :=
  call (navigate router_back).

Inductive Event : Type :=
| KeyboardDidShow (height : Number.t)
| KeyboardDidHide
| ChangeAnswer (v : jsstring)
| PressNext
| PressBack.

Definition handle (ev : Event) : Handler.t State unit :=
  match ev with
  | KeyboardDidShow h => keyboardDidShow h
  | KeyboardDidHide => keyboardDidHide
  | ChangeAnswer v => update (setAnswer v)
  | PressNext => pressNext
  | PressBack => handleBack
  end.

Fixpoint run (evs : list Event) (st : State) : State * list HostCall :=
  match evs with
  | [] => (st, [])
  | ev :: evs' =>
      let r := handle ev st in
      let r' := run evs' (state_of r) in
      (fst r', calls_of r ++ snd r')
  end.

(** [paddingBottom: keyboardHeight > 0 ? 60 : spacing.l]; the theme value
    [spacing.l] is a parameter. *)
Definition paddingBottom (spacing_l : Number.t) (st : State) : Number.t :=
  if Number.gt (keyboardHeight st) (Number.ofNat 0) then Number.ofNat 60
  else spacing_l.

(** [bottom: keyboardHeight] of the toolbar. *)
Definition toolbarBottom (st : State) : Number.t := keyboardHeight st.

(** The text of the last [onChangeText] in a list of events, and the
    height the last keyboard event reported. *)
Fixpoint lastAnswer (evs : list Event) (current : jsstring) : jsstring :=
  match evs with
  | [] => current
  | ChangeAnswer v :: evs' => lastAnswer evs' v
  | _ :: evs' => lastAnswer evs' current
  end.

Fixpoint lastKeyboardHeight (evs : list Event) (current : Number.t)
  : Number.t :=
  match evs with
  | [] => current
  | KeyboardDidShow h :: evs' => lastKeyboardHeight evs' h
  | KeyboardDidHide :: evs' => lastKeyboardHeight evs' (Number.ofNat 0)
  | _ :: evs' => lastKeyboardHeight evs' current
  end.

End Wizard1View.

(** *** CaseStudiesTab.tsx: the error display *)

Module CaseStudiesTab.

Local Open Scope string_scope.

(** The values an error of type [Error | any | null] can be.  [Object]
    lists the properties of an object; how [in] and a property read go on
    it is a matter of the object: plain for data properties
    ([hasProperty], [getProperty] below), while an accessor or a proxy
    runs code of its own and can throw ([ObjectModel] below). *)
#[warnings="-register-all"]
Inductive any : Type :=
| Undefined
| Null
| Bool (b : bool)
| Num (x : Number.t)
| Str (s : jsstring)
| Function
| Object (props : list (jsstring * any)).

(** A string literal of the source as a string value (ASCII literals). *)
Definition lit (s : string) : jsstring :=
  map (fun a => N.of_nat (Ascii.nat_of_ascii a)) (list_ascii_of_string s).

(** ToBoolean. *)
Definition ToBoolean (v : any) : bool :=
  match v with
  | Undefined | Null => false
  | Bool b => b
  | Num (S754_zero _) | Num S754_nan => false
  | Num _ => true
  | Str s => JS.truthy s
  | Function | Object _ => true
  end.

(** [typeof v === 'object'] *)
Definition typeofIsObject (v : any) : bool :=
  match v with
  | Null | Object _ => true
  | _ => false
  end.

Fixpoint lookup (key : jsstring) (props : list (jsstring * any)) : option any :=
  match props with
  | [] => None
  | (k, v) :: props' => if JS.eqb k key then Some v else lookup key props'
  end.

(** [key in v]: a [TypeError] ([None]) unless [v] is an object. *)
Definition hasProperty (key : string) (v : any) : option bool :=
  match v with
  | Object props =>
      Some (match lookup (lit key) props with Some _ => true | None => false end)
  | _ => None
  end.

(** [v.key]: a [TypeError] on [undefined] and [null], [undefined] where the
    property is missing. *)
Definition getProperty (key : string) (v : any) : option any :=
  match v with
  | Undefined | Null => None
  | Object props =>
      Some (match lookup (lit key) props with Some x => x | None => Undefined end)
  | _ => Some Undefined
  end.

(** [v === 'literal'] *)
Definition strictEqualsLit (v : any) (s : string) : bool :=
  match v with
  | Str x => JS.eqb x (lit s)
  | _ => false
  end.

(** What [renderError] returns: [null] or an [EmptyState] element. *)
Inductive Rendered : Type :=
| RenderedNull
| EmptyState (title message : Translated).

Definition genericError : Rendered :=
  EmptyState (t_ "errors.genericErrorTitle" (Some "Fehler aufgetreten"))
             (t_ "solvboxai.errorMessages.casestudies" None).

(** The [switch (err.type)]. *)
Definition messageForType (type : any) : Rendered :=
  if strictEqualsLit type "network" then
    EmptyState
      (t_ "errors.networkErrorTitle" (Some "Netzwerkfehler"))
      (t_ "errors.networkErrorMessage"
          (Some "Bitte überprüfe deine Internetverbindung und versuche es später erneut."))
  else if strictEqualsLit type "not_found" then
    EmptyState
      (t_ "errors.notFoundTitle" (Some "Daten nicht gefunden"))
      (t_ "errors.notFoundMessage"
          (Some "Die angeforderten Fallstudien konnten nicht gefunden werden."))
  else if strictEqualsLit type "server" then
    EmptyState
      (t_ "errors.serverErrorTitle" (Some "Serverfehler"))
      (t_ "errors.serverErrorMessage"
          (Some "Es ist ein Serverfehler aufgetreten. Unser Team wurde informiert."))
  else
    EmptyState
      (t_ "errors.genericErrorTitle" (Some "Fehler aufgetreten"))
      (t_ "solvboxai.errorMessages.casestudies" None).

(** [renderError]; [None] stands for a thrown [TypeError].  The operands of
    [&&] are evaluated from left to right, each only if those before it
    were truthy. *)
Definition renderError (err : any) : option Rendered :=
  if negb (ToBoolean err) then Some RenderedNull
  else if negb (ToBoolean err && typeofIsObject err) then Some genericError
  else
    match hasProperty "type" err with
    | None => None
    | Some false => Some genericError
    | Some true =>
      match hasProperty "shouldDisplay" err with
      | None => None
      | Some false => Some genericError
      | Some true =>
        match getProperty "shouldDisplay" err with
        | None => None
        | Some flag =>
          if ToBoolean flag then
            match getProperty "type" err with
            | None => None
            | Some type => Some (messageForType type)
            end
          else Some genericError
        end
      end
    end.

(** [const errorFallback = error ? renderError(error) : undefined;]
    The outer [None] is a throw, the inner one [undefined]. *)
Definition errorFallback (error : any) : option (option Rendered) :=
  if ToBoolean error then
    match renderError error with
    | None => None
    | Some r => Some (Some r)
    end
  else Some None.

(** The types the [switch] has a case for. *)
Definition knownType (type : any) : bool :=
  strictEqualsLit type "network" || strictEqualsLit type "not_found"
  || strictEqualsLit type "server".

(** How [key in v] and [v.key] go on the objects at hand; [None] is a
    throw.  [plain] is the way of data properties. *)
Record ObjectModel : Type := mkObjectModel
  { has : string -> any -> option bool;
    get : string -> any -> option any }.

Definition plain : ObjectModel :=
  {| has := hasProperty; get := getProperty |}.

(** [renderError] and [errorFallback] once more, over objects of any
    kind: the same text, with the operations on [err] taken from the
    object model. *)
Definition renderErrorWith (O : ObjectModel) (err : any) : option Rendered :=
  if negb (ToBoolean err) then Some RenderedNull
  else if negb (ToBoolean err && typeofIsObject err) then Some genericError
  else
    match has O "type" err with
    | None => None
    | Some false => Some genericError
    | Some true =>
      match has O "shouldDisplay" err with
      | None => None
      | Some false => Some genericError
      | Some true =>
        match get O "shouldDisplay" err with
        | None => None
        | Some flag =>
          if ToBoolean flag then
            match get O "type" err with
            | None => None
            | Some type => Some (messageForType type)
            end
          else Some genericError
        end
      end
    end.

Definition errorFallbackWith (O : ObjectModel) (error : any)
  : option (option Rendered) :=
  if ToBoolean error then
    match renderErrorWith O error with
    | None => None
    | Some r => Some (Some r)
    end
  else Some None.

(** Objects all of whose properties are accessors that throw. *)
Definition throwingGetters : ObjectModel :=
  {| has := hasProperty; get := fun _ _ => None |}.

(** An error object with the two properties the display looks at. *)
Definition displayable (type : any) (shouldDisplay : any) : any :=
  Object [(lit "type", type); (lit "shouldDisplay", shouldDisplay)].

End CaseStudiesTab.

(* ===================================================================== *)
(** ** Facts about strings *)
(* ===================================================================== *)

Lemma eqb_true_iff (s t : jsstring) : JS.eqb s t = true <-> s = t.
Proof.
  revert t. induction s as [|c s IH]; intros [|d t]; simpl;
    try (split; (reflexivity || discriminate)).
  rewrite andb_true_iff, N.eqb_eq, IH. split.
  - intros [-> ->]. reflexivity.
  - intro H. injection H as -> ->. split; reflexivity.
Qed.

Lemma length_concat (s t : jsstring) :
  JS.length (JS.concat s t) = JS.length s + JS.length t.
Proof. unfold JS.length, JS.concat. apply length_app. Qed.

Lemma length_filled (c : code_unit) (n : nat) :
  JS.length (Sample.filled c n) = n.
Proof. unfold JS.length, Sample.filled. apply repeat_length. Qed.

Lemma dropWhile_nil_iff (p : code_unit -> bool) (s : jsstring) :
  JS.dropWhile p s = [] <-> forallb p s = true.
Proof.
  induction s as [|c s IH]; simpl.
  - tauto.
  - destruct (p c); simpl; [exact IH | split; discriminate].
Qed.

Lemma dropWhile_suffix (p : code_unit -> bool) (s : jsstring) :
  exists pre, s = pre ++ JS.dropWhile p s /\ forallb p pre = true.
Proof.
  induction s as [|c s [pre [E F]]]; simpl.
  - exists []. split; reflexivity.
  - destruct (p c) eqn:Pc.
    + exists (c :: pre). simpl. rewrite Pc, F. split; [f_equal; exact E | reflexivity].
    + exists []. split; reflexivity.
Qed.

Lemma forallb_rev {A : Type} (p : A -> bool) (l : list A) :
  forallb p (rev l) = forallb p l.
Proof.
  induction l as [|a l IH]; simpl; [reflexivity|].
  rewrite forallb_app, IH. simpl. rewrite andb_true_r. apply andb_comm.
Qed.

(** Trimming leaves nothing exactly when every code unit is white space. *)
Lemma trim_nil_iff (s : jsstring) :
  JS.trim s = [] <-> forallb JS.isWhiteSpace s = true.
Proof.
  unfold JS.trim, JS.trimEnd, JS.trimStart.
  destruct (dropWhile_suffix JS.isWhiteSpace s) as [pre [E F]].
  set (d := JS.dropWhile JS.isWhiteSpace s) in *.
  split.
  - intro H.
    assert (R : JS.dropWhile JS.isWhiteSpace (rev d) = []).
    { apply (f_equal (@rev code_unit)) in H. rewrite rev_involutive in H. exact H. }
    apply dropWhile_nil_iff in R. rewrite forallb_rev in R.
    rewrite E, forallb_app, F, R. reflexivity.
  - intro H. rewrite E, forallb_app in H. apply andb_true_iff in H as [_ H].
    rewrite <- forallb_rev in H. apply dropWhile_nil_iff in H. rewrite H. reflexivity.
Qed.

Lemma not_all_white_iff (s : jsstring) :
  forallb JS.isWhiteSpace s = false <->
  exists c, In c s /\ JS.isWhiteSpace c = false.
Proof.
  induction s as [|c s IH]; simpl.
  - split; [discriminate | intros [c [[] _]]].
  - destruct (JS.isWhiteSpace c) eqn:W; simpl.
    + rewrite IH. split.
      * intros [x [I Wx]]. exists x. auto.
      * intros [x [[->|I] Wx]]; [congruence | exists x; auto].
    + split; [intros _; exists c; auto | reflexivity].
Qed.

Lemma truthy_length (s : jsstring) : JS.truthy s = (0 <? JS.length s).
Proof. destruct s; reflexivity. Qed.

Lemma truthy_trim_iff (s : jsstring) :
  JS.truthy (JS.trim s) = true <->
  exists c, In c s /\ JS.isWhiteSpace c = false.
Proof.
  rewrite <- not_all_white_iff.
  destruct (forallb JS.isWhiteSpace s) eqn:F.
  - apply trim_nil_iff in F. rewrite F. simpl. split; discriminate.
  - destruct (JS.trim s) eqn:T.
    + apply trim_nil_iff in T. congruence.
    + simpl. tauto.
Qed.

Lemma all_white_filled_space (n : nat) :
  forallb JS.isWhiteSpace (Sample.filled 0x20%N n) = true.
Proof. induction n as [|n IH]; simpl; [reflexivity | exact IH]. Qed.

(* ===================================================================== *)
(** ** Facts about the validation effect *)
(* ===================================================================== *)

Section ValidationEffect.

Import NowThenFrame.

Variable mc : MinChars.t.

Lemma errorFlag_effect (f : field) (st : State) :
  errorFlag f (validationEffect mc st)
  = (JS.length (content f st) <? threshold f mc).
Proof. destruct f; reflexivity. Qed.

Lemma satisfied_effect (f : field) (st : State) :
  satisfied f (validationEffect mc st)
  = (threshold f mc <=? JS.length (content f st)).
Proof.
  unfold satisfied. rewrite errorFlag_effect.
  destruct (Nat.ltb_spec (JS.length (content f st)) (threshold f mc));
    destruct (Nat.leb_spec (threshold f mc) (JS.length (content f st)));
    simpl; try reflexivity; lia.
Qed.

Lemma isValid_effect (st : State) :
  isValid (validationEffect mc st)
  = forallb (fun f => satisfied f (validationEffect mc st)) requiredFields.
Proof.
  unfold validationEffect, satisfied, errorFlag, JS.some, Object_values. simpl.
  repeat match goal with
         | |- context [?a <? ?b] => destruct (a <? b)
         end; reflexivity.
Qed.

Lemma forall_field (P : field -> Prop) :
  (forall f, P f) <->
  P Headline /\ P InitialSituation /\ P Implementation /\ P Results.
Proof.
  split.
  - intro H. repeat split; apply H.
  - intros (H1 & H2 & H3 & H4) f. destruct f; assumption.
Qed.

Lemma isValid_effect_iff (st : State) :
  isValid (validationEffect mc st) = true <->
  forall f, satisfied f (validationEffect mc st) = true.
Proof.
  rewrite isValid_effect, forall_field. simpl.
  rewrite !andb_true_iff. tauto.
Qed.

(** The effect writes [errors] and [isValid] and nothing else. *)
Lemma effect_frame (st : State) :
  deps (validationEffect mc st) = deps st /\
  roi (validationEffect mc st) = roi st /\
  contextModalVisible (validationEffect mc st) = contextModalVisible st /\
  contextForOlivia (validationEffect mc st) = contextForOlivia st.
Proof. repeat split. Qed.

(** What it writes depends on the four dependencies only. *)
Lemma effect_depends_on_deps (st1 st2 : State) :
  deps st1 = deps st2 ->
  validationState (validationEffect mc st1)
  = validationState (validationEffect mc st2).
Proof.
  unfold deps. intro H. injection H as H1 H2 H3 H4.
  unfold validationState, validationEffect, newErrors. simpl.
  rewrite H1, H2, H3, H4. reflexivity.
Qed.

Lemma effect_idempotent (st : State) :
  validationEffect mc (validationEffect mc st) = validationEffect mc st.
Proof. reflexivity. Qed.

Lemma validated_effect (st : State) : validated mc (validationEffect mc st).
Proof. reflexivity. Qed.

Lemma depsChanged_false (prev next : State) :
  depsChanged prev next = false -> deps prev = deps next.
Proof.
  unfold depsChanged, deps. simpl. intro H.
  apply negb_false_iff in H.
  rewrite !andb_true_iff, !eqb_true_iff in H.
  destruct H as (-> & -> & -> & -> & _). reflexivity.
Qed.

Lemma depsChanged_same (st st' : State) :
  deps st = deps st' -> depsChanged st st' = false.
Proof.
  unfold depsChanged, deps. simpl. intro H. injection H as -> -> -> ->.
  apply negb_false_iff. rewrite !andb_true_iff. repeat split; apply eqb_true_iff; reflexivity.
Qed.

(** No handler writes [errors] or [isValid]. *)
Lemma handle_validationState (ev : Event) (st : State) :
  validationState (Handler.state_of (handle ev st)) = validationState st.
Proof.
  destruct ev as [f v| | | | | |]; try reflexivity.
  - destruct f; reflexivity.
  - unfold handle, handleSubmit, Handler.bind, Handler.read, Handler.call.
    destruct (isValid st); reflexivity.
Qed.

Lemma step_validated (ev : Event) (st : State) :
  validated mc st -> validated mc (fst (step mc ev st)).
Proof.
  intro V. unfold step, commit. simpl.
  set (st1 := Handler.state_of (handle ev st)).
  destruct (depsChanged st st1) eqn:D.
  - apply validated_effect.
  - apply depsChanged_false in D. unfold validated in *.
    unfold st1 at 1. rewrite handle_validationState, V.
    apply effect_depends_on_deps. exact D.
Qed.

Lemma run_validated (evs : list Event) (st : State) :
  validated mc st -> validated mc (run mc evs st).
Proof.
  revert st. induction evs as [|ev evs IH]; intros st V; simpl.
  - exact V.
  - apply IH. apply step_validated. exact V.
Qed.

(** Every state the screen shows after mounting carries the flags the
    effect computes from its contents. *)
Lemma reachable_validated (evs : list Event) :
  validated mc (run mc evs (mount mc)).
Proof. apply run_validated. apply validated_effect. Qed.


Lemma validated_isValid (st : State) :
  validated mc st ->
  isValid st = forallb (fun f => threshold f mc <=? JS.length (content f st))
                 requiredFields.
Proof.
  intro V. transitivity (isValid (validationEffect mc st)).
  - exact (f_equal snd V).
  - rewrite isValid_effect. simpl. rewrite !satisfied_effect. reflexivity.
Qed.

End ValidationEffect.

(* ===================================================================== *)
(** ** The validator: flags, aggregate, scenario, monotonicity, purity *)
(* ===================================================================== *)

Import NowThenFrame.

(** C1. For every validated field, with threshold [m] and content [c], the
    satisfied flag the effect computes is true exactly when the length of
    [c] is at least [m], and the error flag is true exactly when the length
    is below [m].  In particular a content of length exactly [m] is
    satisfied and one of length [m - 1] is not. *)
Theorem satisfied_iff_min_length :
  forall (mc : MinChars.t) (st : State) (f : field),
    let m := threshold f mc in
    let c := content f st in
    let st' := validationEffect mc st in
    (satisfied f st' = true <-> m <= JS.length c) /\
    (errorFlag f st' = true <-> JS.length c < m) /\
    (JS.length c = m -> satisfied f st' = true) /\
    (S (JS.length c) = m -> satisfied f st' = false).
Proof.
  intros mc st f m c st'. unfold st'.
  rewrite satisfied_effect, errorFlag_effect. fold m c.
  rewrite Nat.leb_le, Nat.ltb_lt. repeat split; try tauto.
  - intro H. lia.
  - intro H. apply Nat.leb_gt. lia.
Qed.

Lemma satisfied_iff_min_length_witness :
  satisfied Headline (validationEffect MIN_CHARS (Sample.typedWith 97%N)) = true /\
  satisfied InitialSituation (validationEffect MIN_CHARS Sample.oneShort) = false.
Proof.
  split.
  - apply (satisfied_iff_min_length MIN_CHARS (Sample.typedWith 97%N) Headline).
    vm_compute. reflexivity.
  - apply (satisfied_iff_min_length MIN_CHARS Sample.oneShort InitialSituation).
    vm_compute. reflexivity.
Defined.

(** C2. The aggregate flag the effect computes is true exactly when each of
    the four required fields is satisfied; it is the conjunction of their
    flags.  The ROI takes no part: whatever it holds, the validation state
    is the same, typing into it does not even run the effect, and in every
    state the screen reaches the aggregate is decided by the four required
    contents alone. *)
Theorem aggregate_iff_required_satisfied :
  forall (mc : MinChars.t) (st : State),
    let st' := validationEffect mc st in
    (isValid st' = true <-> forall f, satisfied f st' = true) /\
    isValid st' = forallb (fun f => satisfied f st') requiredFields /\
    (forall r, validationState (validationEffect mc (setRoi r st))
               = validationState st') /\
    (forall r, (forall f, satisfied f st' = true) ->
               isValid (validationEffect mc (setRoi r st)) = true) /\
    (forall r, validationState (fst (step mc (ChangeRoi r) st))
               = validationState st) /\
    (forall evs,
        let s := run mc evs (mount mc) in
        isValid s = true <->
        forall f, threshold f mc <= JS.length (content f s)).
Proof.
  intros mc st st'. unfold st'.
  split; [apply isValid_effect_iff|].
  split; [apply isValid_effect|].
  split; [intro r; apply effect_depends_on_deps; reflexivity|].
  split.
  { intros r H. apply isValid_effect_iff.
    intro f. rewrite satisfied_effect. specialize (H f).
    rewrite satisfied_effect in H. destruct f; exact H. }
  split.
  { intro r. unfold step, commit. simpl.
    rewrite depsChanged_same by reflexivity. reflexivity. }
  intros evs.
  rewrite (validated_isValid mc _ (reachable_validated mc evs)).
  rewrite forall_field. simpl.
  rewrite !andb_true_iff, !Nat.leb_le. tauto.
Qed.

Lemma aggregate_iff_required_satisfied_witness :
  isValid (validationEffect MIN_CHARS (setRoi JS.empty (Sample.typedWith 97%N)))
  = true.
Proof.
  apply (aggregate_iff_required_satisfied MIN_CHARS (Sample.typedWith 97%N)).
  intro f. destruct f; vm_compute; reflexivity.
Defined.

(** C3. With the thresholds of [MIN_CHARS] (30, 200, 300, 150): while the
    initial situation has length 199 its flag is false and so is the
    aggregate; once its content has length 200 its flag is true, and the
    aggregate is true as soon as headline, implementation and results meet
    their thresholds too. *)
Theorem initial_situation_scenario :
  forall (st : State) (extended : jsstring),
    JS.length (initialSituation st) = 199 ->
    JS.length extended = 200 ->
    let before := validationEffect MIN_CHARS st in
    let after :=
      validationEffect MIN_CHARS (setInitialSituation extended st) in
    threshold Headline MIN_CHARS = 30 /\
    threshold InitialSituation MIN_CHARS = 200 /\
    threshold Implementation MIN_CHARS = 300 /\
    threshold Results MIN_CHARS = 150 /\
    satisfied InitialSituation before = false /\
    isValid before = false /\
    satisfied InitialSituation after = true /\
    (30 <= JS.length (headline st) ->
     300 <= JS.length (implementation st) ->
     150 <= JS.length (results st) ->
     isValid after = true).
Proof.
  intros st extended H199 H200 before after.
  assert (B : satisfied InitialSituation before = false).
  { unfold before. rewrite satisfied_effect. apply Nat.leb_gt.
    change (JS.length (initialSituation st) < 200). lia. }
  assert (A : satisfied InitialSituation after = true).
  { unfold after. rewrite satisfied_effect. apply Nat.leb_le.
    change (200 <= JS.length extended). lia. }
  repeat split; try assumption.
  - unfold before in *. rewrite isValid_effect. simpl.
    rewrite B. apply andb_false_r.
  - intros Hh Hi Hr. unfold after in *. apply isValid_effect_iff.
    intro f. destruct f; try exact A;
      rewrite satisfied_effect; apply Nat.leb_le; assumption.
Qed.

Lemma initial_situation_scenario_witness :
  isValid (validationEffect MIN_CHARS Sample.oneShort) = false /\
  isValid (validationEffect MIN_CHARS
             (setInitialSituation (Sample.filled 98%N 200) Sample.oneShort))
  = true.
Proof.
  assert (H199 : JS.length (initialSituation Sample.oneShort) = 199)
    by (vm_compute; reflexivity).
  assert (H200 : JS.length (Sample.filled 98%N 200) = 200)
    by (vm_compute; reflexivity).
  pose proof (initial_situation_scenario Sample.oneShort
                (Sample.filled 98%N 200) H199 H200) as H.
  split.
  - apply H.
  - apply H; vm_compute; lia.
Defined.

(** C4. Appending to a field's content never turns its satisfied flag from
    true to false: if the flag is true for a content, it is true for that
    content followed by any suffix. *)
Theorem appending_keeps_satisfied :
  forall (mc : MinChars.t) (st : State) (f : field) (s : jsstring),
    satisfied f (validationEffect mc st) = true ->
    satisfied f
      (validationEffect mc (setContent f (JS.concat (content f st) s) st))
    = true.
Proof.
  intros mc st f s H. rewrite satisfied_effect in *.
  apply Nat.leb_le in H. apply Nat.leb_le.
  assert (E : content f (setContent f (JS.concat (content f st) s) st)
              = JS.concat (content f st) s) by (destruct f; reflexivity).
  rewrite E, length_concat. lia.
Qed.

Lemma appending_keeps_satisfied_witness :
  satisfied Headline
    (validationEffect MIN_CHARS
       (setContent Headline
          (JS.concat (content Headline (Sample.typedWith 97%N))
                     (Sample.filled 32%N 5))
          (Sample.typedWith 97%N)))
  = true.
Proof.
  apply (appending_keeps_satisfied MIN_CHARS (Sample.typedWith 97%N) Headline).
  vm_compute. reflexivity.
Defined.

(** C5. The validation effect is a function of the four field contents and
    of nothing else: on two states with equal contents it stores the same
    error flags and the same aggregate, whatever the states held before;
    running it again changes nothing; and it writes no slot but the error
    flags and the aggregate. *)
Theorem validator_pure :
  forall (mc : MinChars.t) (st1 st2 : State),
    deps st1 = deps st2 ->
    validationState (validationEffect mc st1)
    = validationState (validationEffect mc st2) /\
    validationEffect mc (validationEffect mc st1) = validationEffect mc st1 /\
    deps (validationEffect mc st1) = deps st1 /\
    roi (validationEffect mc st1) = roi st1 /\
    contextModalVisible (validationEffect mc st1) = contextModalVisible st1 /\
    contextForOlivia (validationEffect mc st1) = contextForOlivia st1.
Proof.
  intros mc st1 st2 H.
  split; [apply effect_depends_on_deps; exact H|].
  split; [apply effect_idempotent|].
  apply effect_frame.
Qed.

Lemma validator_pure_witness :
  validationState
    (validationEffect MIN_CHARS (Sample.typedWith 97%N))
  = validationState
      (validationEffect MIN_CHARS
         (setIsValid false
            (setRoi (Sample.filled 98%N 3) (Sample.typedWith 97%N)))).
Proof.
  apply (validator_pure MIN_CHARS (Sample.typedWith 97%N)
           (setIsValid false
              (setRoi (Sample.filled 98%N 3) (Sample.typedWith 97%N)))).
  reflexivity.
Defined.

(* ===================================================================== *)
(** ** Totality: the effect on the slots the screen fills *)
(* ===================================================================== *)










(* ===================================================================== *)
(** ** Submission *)
(* ===================================================================== *)

Lemma handleSubmit_run (st : State) :
  handleSubmit st
  = (tt, st, [if isValid st then Sample.successNotice
              else Sample.incompleteNotice]).
Proof.
  unfold handleSubmit, Handler.bind, Handler.read, Handler.call.
  destruct (isValid st); reflexivity.
Qed.

(** C7. The code falls short of the claim where the aggregate flag is
    true.  On a valid form [handleSubmit] issues the "Success" notice and
    nothing else: two valid forms with different contents make it issue
    the very same calls, so the contents cannot be recovered from what it
    hands to the host -- it hands over none, although the source marks the
    place with "Here the data would be saved/sent" and the notice reports
    the case study as created. *)
Lemma submit_hands_over_no_content :
  isValid (Sample.typedWith 97%N) = true /\
  isValid (Sample.typedWith 98%N) = true /\
  Sample.rawContents (Sample.typedWith 97%N)
  <> Sample.rawContents (Sample.typedWith 98%N) /\
  Handler.calls_of (handleSubmit (Sample.typedWith 97%N))
  = [Sample.successNotice] /\
  Handler.calls_of (handleSubmit (Sample.typedWith 98%N))
  = [Sample.successNotice] /\
  ~ (exists handedOver : list HostCall -> list jsstring,
        forall st, isValid st = true ->
                   handedOver (Handler.calls_of (handleSubmit st))
                   = Sample.rawContents st).
Proof.
  split; [vm_compute; reflexivity|].
  split; [vm_compute; reflexivity|].
  split; [vm_compute; discriminate|].
  split; [vm_compute; reflexivity|].
  split; [vm_compute; reflexivity|].
  intros [handedOver H].
  assert (A := H (Sample.typedWith 97%N) ltac:(vm_compute; reflexivity)).
  assert (B := H (Sample.typedWith 98%N) ltac:(vm_compute; reflexivity)).
  assert (EA : Handler.calls_of (handleSubmit (Sample.typedWith 97%N))
               = [Sample.successNotice]) by (vm_compute; reflexivity).
  assert (EB : Handler.calls_of (handleSubmit (Sample.typedWith 98%N))
               = [Sample.successNotice]) by (vm_compute; reflexivity).
  rewrite EA in A. rewrite EB, A in B. vm_compute in B. discriminate B.
Qed.

(** C9. [handleSubmit] writes no state: in either branch the state it
    leaves is the state it found -- contents, error flags and aggregate
    alike -- and the render that follows does not run the effect. *)
Theorem submit_leaves_state :
  forall st : State,
    Handler.state_of (handleSubmit st) = st /\
    (forall mc, fst (step mc PressSave st) = st).
Proof.
  intro st. split.
  - rewrite handleSubmit_run. reflexivity.
  - intro mc. unfold step, commit, handle. rewrite handleSubmit_run.
    unfold Handler.state_of. simpl.
    rewrite depsChanged_same by reflexivity. reflexivity.
Qed.

(* ===================================================================== *)
(** ** The wizard's first question *)
(* ===================================================================== *)

Lemma wizard_isValid_truthy (st : Wizard1.State) :
  Wizard1.isValid st = JS.truthy (JS.trim (Wizard1.answer st)).
Proof. unfold Wizard1.isValid. symmetry. apply truthy_length. Qed.

Lemma handleNext_run (st : Wizard1.State) :
  Wizard1.handleNext st
  = (tt, st, if Wizard1.isValid st
             then [console_log "Antwort:" (Wizard1.answer st)] else []).
Proof.
  rewrite wizard_isValid_truthy.
  unfold Wizard1.handleNext, Handler.bind, Handler.read, Handler.call, Handler.ret.
  destruct (JS.truthy (JS.trim (Wizard1.answer st))); reflexivity.
Qed.

(** C8. In the wizard the "Next" button is enabled, and [handleNext] logs
    the answer, exactly when the answer holds a code unit that is not white
    space; otherwise the button is disabled and the handler does nothing.
    An answer of white space only is thus invalid, however long -- whereas
    the case-study form counts raw length, so a field filled with spaces up
    to its threshold is satisfied. *)
Theorem next_iff_not_blank :
  forall st : Wizard1.State,
    let notBlank :=
      exists c, In c (Wizard1.answer st) /\ JS.isWhiteSpace c = false in
    (Wizard1.isValid st = true <-> notBlank) /\
    (Wizard1.nextDisabled st = false <-> notBlank) /\
    (Handler.calls_of (Wizard1.handleNext st)
     = [console_log "Antwort:" (Wizard1.answer st)] <-> notBlank) /\
    (Handler.calls_of (Wizard1.handleNext st) = [] <-> ~ notBlank) /\
    (Handler.calls_of (Wizard1.pressNext st)
     = Handler.calls_of (Wizard1.handleNext st)) /\
    (forall n, Wizard1.isValid (Wizard1.setAnswer (Sample.filled 0x20%N n) st)
               = false) /\
    (forall mc f s,
        satisfied f
          (validationEffect mc
             (setContent f (Sample.filled 0x20%N (threshold f mc)) s))
        = true).
Proof.
  intros st notBlank.
  assert (V : Wizard1.isValid st = true <-> notBlank).
  { rewrite wizard_isValid_truthy. apply truthy_trim_iff. }
  split; [exact V|].
  split.
  { unfold Wizard1.nextDisabled. rewrite negb_false_iff. exact V. }
  rewrite handleNext_run. unfold Handler.calls_of. simpl.
  split.
  { rewrite <- V. destruct (Wizard1.isValid st); split;
      (reflexivity || discriminate). }
  split.
  { rewrite <- V. destruct (Wizard1.isValid st); split; intro H;
      try reflexivity; try discriminate; exfalso; apply H; reflexivity. }
  split.
  { unfold Wizard1.pressNext, Wizard1.nextDisabled.
    rewrite handleNext_run.
    destruct (Wizard1.isValid st); reflexivity. }
  split.
  { intro n. rewrite wizard_isValid_truthy. simpl.
    assert (T := all_white_filled_space n). apply trim_nil_iff in T.
    rewrite T. reflexivity. }
  intros mc f s. rewrite satisfied_effect.
  assert (E : content f (setContent f (Sample.filled 0x20%N (threshold f mc)) s)
              = Sample.filled 0x20%N (threshold f mc)) by (destruct f; reflexivity).
  rewrite E, length_filled. apply Nat.leb_refl.
Qed.

(* ===================================================================== *)
(** ** Facts about numbers: integers, rounding and division *)
(* ===================================================================== *)

Section NumberFacts.

Local Open Scope Z_scope.

Lemma digits_bounds (p : positive) :
  2 ^ (Zpos (digits2_pos p) - 1) <= Zpos p < 2 ^ Zpos (digits2_pos p).
Proof.
  induction p as [p IH|p IH|]; simpl digits2_pos.
  - rewrite Pos2Z.inj_succ.
    replace (Z.succ (Zpos (digits2_pos p)) - 1) with (Z.succ (Zpos (digits2_pos p) - 1)) by lia.
    rewrite !Z.pow_succ_r by lia. lia.
  - rewrite Pos2Z.inj_succ.
    replace (Z.succ (Zpos (digits2_pos p)) - 1) with (Z.succ (Zpos (digits2_pos p) - 1)) by lia.
    rewrite !Z.pow_succ_r by lia. lia.
  - simpl. lia.
Qed.

Lemma digits_unique (p : positive) (d : Z) :
  2 ^ (d - 1) <= Zpos p < 2 ^ d -> Zpos (digits2_pos p) = d.
Proof.
  intros [L U]. destruct (digits_bounds p) as [L' U'].
  assert (0 < d).
  { destruct (Z_lt_le_dec 0 d) as [H|H]; [exact H|].
    exfalso. destruct (Z.eq_dec d 0) as [->|N].
    - simpl in U. lia.
    - rewrite (Z.pow_neg_r 2 d) in U by lia. lia. }
  assert (Zpos (digits2_pos p) - 1 < d).
  { apply (Z.pow_lt_mono_r_iff 2); lia. }
  assert (d - 1 < Zpos (digits2_pos p)).
  { apply (Z.pow_lt_mono_r_iff 2); lia. }
  lia.
Qed.

Lemma loc_of_record (m : Z) (l : location) :
  loc_of_shr_record (shr_record_of_loc m l) = l.
Proof. destruct l as [|[]]; reflexivity. Qed.

Lemma shr_m_record (m : Z) (l : location) :
  shr_m (shr_record_of_loc m l) = m.
Proof. destruct l as [|[]]; reflexivity. Qed.

Lemma round_bounds (m : Z) (l : location) :
  m <= round_nearest_even m l <= m + 1.
Proof.
  unfold round_nearest_even. destruct l as [|[]]; try destruct (Z.even m); lia.
Qed.


Lemma shr_fexp_53 (m : positive) (e : Z) (l : location) :
  Zpos (digits2_pos m) = 53 -> -1074 <= e ->
  shr_fexp Number.prec Number.emax (Zpos m) e l = (shr_record_of_loc (Zpos m) l, e).
Proof.
  intros D E. unfold shr_fexp. simpl Zdigits2. rewrite D.
  replace (fexp Number.prec Number.emax (53 + e) - e) with 0.
  - reflexivity.
  - unfold fexp, emin, Number.prec, Number.emax. lia.
Qed.

Lemma shr_fexp_54 (m : positive) (e : Z) (l : location) :
  Zpos (digits2_pos m) = 54 -> -1075 <= e ->
  shr_fexp Number.prec Number.emax (Zpos m) e l = (shr_1 (shr_record_of_loc (Zpos m) l), e + 1).
Proof.
  intros D E. unfold shr_fexp. simpl Zdigits2. rewrite D.
  replace (fexp Number.prec Number.emax (54 + e) - e) with 1.
  - reflexivity.
  - unfold fexp, emin, Number.prec, Number.emax. lia.
Qed.

Lemma digits_53_bounds (m : positive) :
  Zpos (digits2_pos m) = 53 -> Number.two52 <= Zpos m < Number.two53.
Proof.
  intro D. pose proof (digits_bounds m) as B. rewrite D in B.
  change (2 ^ (53 - 1)) with Number.two52 in B. change (2 ^ 53) with Number.two53 in B. exact B.
Qed.

Lemma bounds_digits_53 (m : positive) :
  Number.two52 <= Zpos m < Number.two53 -> Zpos (digits2_pos m) = 53.
Proof. intro B. apply digits_unique. exact B. Qed.

Lemma round_aux_53 (s : bool) (m : positive) (e : Z) (l : location) :
  Zpos (digits2_pos m) = 53 -> -1074 <= e <= 970 ->
  binary_round_aux Number.prec Number.emax s (Zpos m) e l
  = if round_nearest_even (Zpos m) l <? Number.two53
    then S754_finite s (Z.to_pos (round_nearest_even (Zpos m) l)) e
    else S754_finite s 4503599627370496 (e + 1).
Proof.
  intros D E. unfold binary_round_aux.
  rewrite (shr_fexp_53 m e l D) by lia.
  rewrite loc_of_record, shr_m_record.
  pose proof (digits_53_bounds m D) as B.
  pose proof (round_bounds (Zpos m) l) as R.
  set (r := round_nearest_even (Zpos m) l) in *.
  destruct (Z.ltb_spec r Number.two53) as [Lt|Ge].
  - destruct r as [|M|M]; try (unfold Number.two52 in B; lia).
    rewrite (shr_fexp_53 M e loc_Exact) by (try apply bounds_digits_53; lia).
    simpl shr_m. simpl Z.to_pos.
    replace (e <=? Number.emax - Number.prec) with true; [reflexivity|].
    symmetry. apply Z.leb_le. unfold Number.emax, Number.prec. lia.
  - assert (r = Number.two53) as -> by lia. unfold Number.two53.
    rewrite (shr_fexp_54 9007199254740992 e loc_Exact) by (try reflexivity; lia).
    simpl shr_m.
    replace (e + 1 <=? Number.emax - Number.prec) with true; [reflexivity|].
    symmetry. apply Z.leb_le. unfold Number.emax, Number.prec. lia.
Qed.

Lemma round_aux_54 (s : bool) (m : positive) (e : Z) (l : location) :
  Zpos (digits2_pos m) = 54 -> -1075 <= e <= 969 ->
  exists (p : positive) (l' : location),
    Zpos p = Zpos m / 2 /\
    Zpos (digits2_pos p) = 53 /\
    (Z.even (Zpos m) = true -> l' = loc_Exact \/ l' = loc_Inexact Lt) /\
    binary_round_aux Number.prec Number.emax s (Zpos m) e l
    = binary_round_aux Number.prec Number.emax s (Zpos p) (e + 1) l'.
Proof.
  intros D E.
  destruct m as [p|p|]; try discriminate D.
  - exists p, (loc_of_shr_record (shr_1 (shr_record_of_loc (Zpos p~1) l))).
    assert (Dp : Zpos (digits2_pos p) = 53).
    { simpl digits2_pos in D. rewrite Pos2Z.inj_succ in D. lia. }
    split; [rewrite Pos2Z.inj_xI; apply Z.div_unique with (r := 1); lia|].
    split; [exact Dp|].
    split; [simpl; discriminate|].
    unfold binary_round_aux.
    rewrite (shr_fexp_54 (p~1) e l D) by lia.
    rewrite (shr_fexp_53 p (e + 1) _ Dp) by lia.
    rewrite loc_of_record, shr_m_record.
    destruct l as [|[]]; reflexivity.
  - exists p, (loc_of_shr_record (shr_1 (shr_record_of_loc (Zpos p~0) l))).
    assert (Dp : Zpos (digits2_pos p) = 53).
    { simpl digits2_pos in D. rewrite Pos2Z.inj_succ in D. lia. }
    split; [rewrite Pos2Z.inj_xO; apply Z.div_unique with (r := 0); lia|].
    split; [exact Dp|].
    split; [intros _; destruct l as [|[]]; simpl; auto|].
    unfold binary_round_aux.
    rewrite (shr_fexp_54 (p~0) e l D) by lia.
    rewrite (shr_fexp_53 p (e + 1) _ Dp) by lia.
    rewrite loc_of_record, shr_m_record.
    destruct l as [|[]]; reflexivity.
Qed.

Lemma iter_xO_pow (p k : positive) :
  Zpos (Pos.iter xO p k) = Zpos p * 2 ^ Zpos k.
Proof.
  change (Pos.iter xO p k) with (shift_pos k p).
  rewrite shift_pos_correct. change (Z.pow_pos 2 k) with (2 ^ Zpos k). lia.
Qed.

(** A positive integer below [2^53] is a Number, stored with a 53-bit
    mantissa. *)
Lemma ofNat_normal (n : nat) :
  0 < Z.of_nat n < Number.two53 ->
  exists (M : positive) (a : Z),
    Number.ofNat n = S754_finite false M (- a) /\
    0 <= a <= 52 /\
    Zpos M = Z.of_nat n * 2 ^ a /\
    Number.two52 <= Zpos M < Number.two53.
Proof.
  intros [Pos Small]. unfold Number.ofNat, binary_normalize.
  destruct (Z.of_nat n) as [|p|p]; try lia.
  pose proof (digits_bounds p) as B.
  set (d := Zpos (digits2_pos p)) in *.
  assert (D1 : 1 <= d) by (unfold d; lia).
  assert (D2 : d <= 53).
  { assert (d - 1 < 53); [|lia].
    apply (Z.pow_lt_mono_r_iff 2); try lia. change (2 ^ 53) with Number.two53. lia. }
  unfold binary_round. fold d.
  replace (fexp Number.prec Number.emax (d + 0)) with (d - 53)
    by (unfold fexp, emin, Number.prec, Number.emax; lia).
  unfold shl_align.
  destruct (d - 53 - 0) as [|k|k] eqn:K; try lia.
  - assert (D : Zpos (digits2_pos p) = 53) by (fold d; lia).
    rewrite (round_aux_53 false p 0 loc_Exact D) by lia.
    simpl round_nearest_even.
    pose proof (digits_53_bounds p D) as Bp.
    replace (Zpos p <? Number.two53) with true by (symmetry; apply Z.ltb_lt; lia).
    exists p, 0. simpl Z.to_pos. repeat split; try lia.
  - assert (Kd : Zpos k = 53 - d) by lia.
    assert (Bm : Number.two52 <= Zpos (Pos.iter xO p k) < Number.two53).
    { rewrite iter_xO_pow, Kd.
      change Number.two52 with (2 ^ 52). change Number.two53 with (2 ^ 53).
      replace 52 with ((d - 1) + (53 - d)) at 1 by lia.
      replace 53 with (d + (53 - d)) at 4 by lia.
      rewrite !Z.pow_add_r by lia.
      assert (0 < 2 ^ (53 - d)) by (apply Z.pow_pos_nonneg; lia).
      nia. }
    assert (D : Zpos (digits2_pos (Pos.iter xO p k)) = 53)
      by (apply bounds_digits_53; exact Bm).
    rewrite (round_aux_53 false _ (d - 53) loc_Exact D) by lia.
    simpl round_nearest_even.
    replace (Zpos (Pos.iter xO p k) <? Number.two53) with true
      by (symmetry; apply Z.ltb_lt; lia).
    exists (Pos.iter xO p k), (53 - d). simpl Z.to_pos.
    repeat split; try lia.
    + f_equal. lia.
    + rewrite iter_xO_pow, Kd. reflexivity.
Qed.

(** Bounds on the quotient of two 53-bit mantissas, the dividend shifted
    by 53 bits. *)
Lemma quotient_bounds (H X Y q r : Z) :
  0 < H -> H <= X < 2 * H -> H <= Y < 2 * H ->
  X * (2 * H) = Y * q + r -> 0 <= r < Y ->
  H <= q <= 4 * H - 2 /\
  (X < Y -> q <= 2 * H - 2) /\
  (Y <= X -> 2 * H <= q).
Proof.
  intros HH HX HY E R.
  assert (L : H <= q).
  { destruct (Z_lt_le_dec q H) as [C|C]; [exfalso|exact C].
    assert (Y * q + r < Y * (q + 1)) by lia.
    assert (Y * (q + 1) <= Y * H) by (apply Z.mul_le_mono_nonneg_l; lia).
    assert (Y * H < (2 * H) * H) by (apply Z.mul_lt_mono_pos_r; lia).
    assert ((2 * H) * H <= X * (2 * H)) by nia.
    lia. }
  assert (U : q <= 4 * H - 2).
  { destruct (Z_lt_le_dec (4 * H - 2) q) as [C|C]; [exfalso|exact C].
    assert (Y * (4 * H - 1) <= Y * q) by (apply Z.mul_le_mono_nonneg_l; lia).
    assert (H * (4 * H - 1) <= Y * (4 * H - 1)) by (apply Z.mul_le_mono_nonneg_r; lia).
    assert (X * (2 * H) <= (2 * H - 1) * (2 * H)) by (apply Z.mul_le_mono_nonneg_r; lia).
    nia. }
  split; [split; assumption|]. split.
  - intro XY. destruct (Z_lt_le_dec (2 * H - 2) q) as [C|C]; [exfalso|exact C].
    assert (Y * (2 * H - 1) <= Y * q) by (apply Z.mul_le_mono_nonneg_l; lia).
    assert (X * (2 * H) <= (Y - 1) * (2 * H)) by (apply Z.mul_le_mono_nonneg_r; lia).
    nia.
  - intro YX. destruct (Z_lt_le_dec q (2 * H)) as [C|C]; [exfalso|exact C].
    assert (Y * (q + 1) <= Y * (2 * H)) by (apply Z.mul_le_mono_nonneg_l; lia).
    assert (Y * (2 * H) <= X * (2 * H)) by (apply Z.mul_le_mono_nonneg_r; lia).
    nia.
Qed.

(** The quotient of two integers-as-Numbers: its exponent tells the order
    of the mantissas apart. *)
Lemma div_normal (Mn Mm : positive) (a b : Z) :
  Number.two52 <= Zpos Mn < Number.two53 -> Number.two52 <= Zpos Mm < Number.two53 ->
  0 <= a <= 52 -> 0 <= b <= 52 ->
  exists M : positive,
    Number.div (S754_finite false Mn (- a)) (S754_finite false Mm (- b))
    = S754_finite false M
        (b - a - 53 + (if Zpos Mm <=? Zpos Mn then 1 else 0)) /\
    Number.two52 <= Zpos M < Number.two53.
Proof.
  intros Bn Bm Ba Bb.
  pose proof (bounds_digits_53 Mn Bn) as Dn.
  pose proof (bounds_digits_53 Mm Bm) as Dm.
  unfold Number.div, SFdiv, SFdiv_core_binary. simpl xorb. simpl Zdigits2.
  rewrite Dn, Dm.
  replace (Z.min (fexp Number.prec Number.emax (53 + - a - (53 + - b)))
                 (- a - - b))
    with (b - a - 53)
    by (unfold fexp, emin, Number.prec, Number.emax; lia).
  replace (- a - - b - (b - a - 53)) with 53 by lia.
  rewrite Z.shiftl_mul_pow2 by lia. change (2 ^ 53) with (2 * Number.two52).
  pose proof (Z_div_mod (Zpos Mn * (2 * Number.two52)) (Zpos Mm) eq_refl) as DM.
  destruct (Z.div_eucl (Zpos Mn * (2 * Number.two52)) (Zpos Mm)) as [q r].
  destruct DM as [E R].
  assert (T : Number.two53 = 2 * Number.two52) by reflexivity.
  destruct (quotient_bounds Number.two52 (Zpos Mn) (Zpos Mm) q r) as ((Q1 & Q2) & Q3 & Q4);
    try lia; try reflexivity.
  set (e := b - a - 53).
  destruct q as [|Q|Q]; try (unfold Number.two52 in Q1; lia).
  destruct (Z.leb_spec (Zpos Mm) (Zpos Mn)) as [C|C].
  - specialize (Q4 C).
    assert (D : Zpos (digits2_pos Q) = 54).
    { apply digits_unique. change (2 ^ (54 - 1)) with Number.two53.
      change (2 ^ 54) with (4 * Number.two52). lia. }
    destruct (round_aux_54 false Q e (new_location (Zpos Mm) r) D)
      as (p & l' & P & Dp & Ev & ->); [unfold e; lia|].
    rewrite (round_aux_53 false p (e + 1) l' Dp) by (unfold e; lia).
    pose proof (digits_53_bounds p Dp) as Bp.
    pose proof (round_bounds (Zpos p) l') as Rb.
    assert (RU : round_nearest_even (Zpos p) l' < Number.two53).
    { destruct (Z.even (Zpos Q)) eqn:EQ.
      - destruct (Ev eq_refl) as [-> | ->]; simpl; lia.
      - assert (Zpos Q <> 4 * Number.two52 - 2).
        { intro X. rewrite X in EQ. discriminate EQ. }
        assert (Zpos Q <= 4 * Number.two52 - 3) by lia.
        assert (Zpos p < 2 * Number.two52 - 1); [|lia].
        rewrite P. apply Z.div_lt_upper_bound; lia. }
    replace (round_nearest_even (Zpos p) l' <? Number.two53) with true
      by (symmetry; apply Z.ltb_lt; exact RU).
    exists (Z.to_pos (round_nearest_even (Zpos p) l')).
    split; [reflexivity|].
    rewrite Z2Pos.id by lia. lia.
  - specialize (Q3 C).
    assert (D : Zpos (digits2_pos Q) = 53).
    { apply bounds_digits_53. lia. }
    rewrite (round_aux_53 false Q e (new_location (Zpos Mm) r) D)
      by (unfold e; lia).
    pose proof (round_bounds (Zpos Q) (new_location (Zpos Mm) r)) as Rb.
    replace (round_nearest_even (Zpos Q) (new_location (Zpos Mm) r) <? Number.two53)
      with true by (symmetry; apply Z.ltb_lt; lia).
    exists (Z.to_pos (round_nearest_even (Zpos Q) (new_location (Zpos Mm) r))).
    split; [f_equal; lia|].
    rewrite Z2Pos.id by lia. lia.
Qed.

Lemma pow2_gap (a b : Z) : 0 <= a < b -> 2 * 2 ^ a <= 2 ^ b.
Proof.
  intro H. replace b with (Z.succ a + (b - a - 1)) by lia.
  rewrite Z.pow_add_r, Z.pow_succ_r by lia.
  assert (0 < 2 ^ a) by (apply Z.pow_pos_nonneg; lia).
  assert (0 < 2 ^ (b - a - 1)) by (apply Z.pow_pos_nonneg; lia).
  nia.
Qed.

(** Two integers with 53-bit normal forms compare as their shifts, then as
    their mantissas. *)
Lemma mantissa_order (H n m a b : Z) :
  0 < H -> 0 <= a -> 0 <= b ->
  H <= n * 2 ^ a < 2 * H -> H <= m * 2 ^ b < 2 * H ->
  (m <= n <-> a < b \/ (a = b /\ m * 2 ^ b <= n * 2 ^ a)).
Proof.
  intros HH Ha Hb Bn Bm.
  assert (PA : 0 < 2 ^ a) by (apply Z.pow_pos_nonneg; lia).
  assert (PB : 0 < 2 ^ b) by (apply Z.pow_pos_nonneg; lia).
  destruct (Z.lt_trichotomy a b) as [L|[E|G]].
  - pose proof (pow2_gap a b (conj Ha L)) as Gp.
    split; [intros _; left; exact L|intros _].
    assert (m * (2 * 2 ^ a) <= m * 2 ^ b) by (apply Z.mul_le_mono_nonneg_l; nia).
    nia.
  - subst b. split.
    + intro MN. right. split; [reflexivity|]. apply Z.mul_le_mono_nonneg_r; lia.
    + intros [C|[_ C]]; [lia|]. apply Z.mul_le_mono_pos_r in C; assumption.
  - pose proof (pow2_gap b a (conj Hb G)) as Gp.
    split; [intro MN; exfalso|intros [C|[C _]]; lia].
    assert (n * (2 * 2 ^ b) <= n * 2 ^ a) by (apply Z.mul_le_mono_nonneg_l; nia).
    nia.
Qed.

Lemma one_normal : Number.one = S754_finite false 4503599627370496 (-52).
Proof. reflexivity. Qed.

Lemma one_ofNat : Number.one = Number.ofNat 1.
Proof. vm_compute. reflexivity. Qed.

(** The quotient of a length by a positive threshold, both below [2^53],
    is a finite positive Number or zero, and it reaches one exactly when
    the length reaches the threshold. *)
Lemma div_lengths (n m : nat) :
  (0 < m)%nat ->
  Z.of_nat n <= Number.MAX_SAFE_INTEGER ->
  Z.of_nat m <= Number.MAX_SAFE_INTEGER ->
  (n = 0%nat /\
   Number.div (Number.ofNat n) (Number.ofNat m) = S754_zero false) \/
  (exists (M : positive) (E : Z),
      Number.div (Number.ofNat n) (Number.ofNat m) = S754_finite false M E /\
      Number.two52 <= Zpos M /\
      (-52 <= E <-> (m <= n)%nat)).
Proof.
  intros Pm Sn Sm.
  change Number.MAX_SAFE_INTEGER with (Number.two53 - 1) in Sn, Sm.
  destruct (ofNat_normal m) as (Mm & b & Em & Bb & Vm & Rm); [lia|].
  destruct n as [|n'].
  - left. split; [reflexivity|]. rewrite Em. reflexivity.
  - right. set (n := S n') in *.
    destruct (ofNat_normal n) as (Mn & a & En & Ba & Vn & Rn); [unfold n; lia|].
    destruct (div_normal Mn Mm a b Rn Rm Ba Bb) as (M & Ed & RM).
    rewrite En, Em, Ed.
    eexists M, _. split; [reflexivity|]. split; [lia|].
    assert (O : Z.of_nat m <= Z.of_nat n <->
                a < b \/ (a = b /\ Z.of_nat m * 2 ^ b <= Z.of_nat n * 2 ^ a)).
    { apply (mantissa_order Number.two52); try lia; try reflexivity.
      - rewrite <- Vn. change (2 * Number.two52) with Number.two53. exact Rn.
      - rewrite <- Vm. change (2 * Number.two52) with Number.two53. exact Rm. }
    rewrite <- Vn, <- Vm in O.
    rewrite Nat2Z.inj_le, O.
    destruct (Z.leb_spec (Zpos Mm) (Zpos Mn)); lia.
Qed.



Lemma min_with_one (M : positive) (E : Z) :
  Number.two52 <= Zpos M ->
  Number.Math_min (S754_finite false M E) Number.one
  = if -52 <=? E then Number.one else S754_finite false M E.
Proof.
  intro B. rewrite one_normal.
  unfold Number.Math_min, SFltb, SFcompare.
  destruct (Z.compare_spec (-52) E) as [Eq|Lt|Gt].
  - subst E. rewrite Pos.compare_cont_spec. cbn [Pos.switch_Eq].
    change (-52 <=? -52) with true. cbv iota.
    destruct (Pos.compare_spec 4503599627370496 M) as [Eq|Lt|Gt].
    + subst M. reflexivity.
    + reflexivity.
    + apply Pos2Z.pos_lt_pos in Gt. unfold Number.two52 in B. exfalso. clear - B Gt. lia.
  - replace (-52 <=? E) with true by (symmetry; apply Z.leb_le; lia).
    reflexivity.
  - replace (-52 <=? E) with false by (symmetry; apply Z.leb_gt; lia).
    reflexivity.
Qed.

Lemma ge_one_below (M : positive) (E : Z) :
  E < -52 -> Number.ge (S754_finite false M E) Number.one = false.
Proof.
  intro L. rewrite one_normal. unfold Number.ge, SFleb, SFcompare.
  rewrite (proj2 (Z.compare_gt_iff (-52) E)) by lia. reflexivity.
Qed.

Lemma color_of_progress (x y : Number.t) :
  backgroundColor (renderCharacterProgress x y) = colors_success <->
  Number.ge (progress x y) Number.one = true.
Proof.
  unfold renderCharacterProgress. cbn [backgroundColor].
  destruct (Number.ge (progress x y) Number.one); split;
    (reflexivity || discriminate).
Qed.

(** C10. The progress value of a field is [Math.min(currentLength /
    minChars, 1)].  For every positive threshold and every length, both
    within the integers a Number holds exactly (up to [2^53 - 1], the
    largest length a string can have), that value is one -- and the bar
    shows the success colour -- exactly when the length has reached the
    threshold, that is exactly when the field's satisfied flag is true. *)
Theorem progress_full_iff_min_length :
  forall currentLength minChars : nat,
    (0 < minChars)%nat ->
    Z.of_nat currentLength <= Number.MAX_SAFE_INTEGER ->
    Z.of_nat minChars <= Number.MAX_SAFE_INTEGER ->
    let p := progress (Number.ofNat currentLength) (Number.ofNat minChars) in
    p = Number.Math_min
          (Number.div (Number.ofNat currentLength) (Number.ofNat minChars))
          Number.one /\
    (p = Number.one <-> (minChars <= currentLength)%nat) /\
    (backgroundColor
       (renderCharacterProgress (Number.ofNat currentLength)
                                (Number.ofNat minChars))
     = colors_success <-> (minChars <= currentLength)%nat) /\
    (forall mc f st,
        threshold f mc = minChars ->
        JS.length (content f st) = currentLength ->
        (satisfied f (validationEffect mc st) = true <-> p = Number.one) /\
        (satisfied f (validationEffect mc st) = true <->
         backgroundColor (fieldProgressBar mc f st) = colors_success)).
Proof.
  intros n m Pm Sn Sm p.
  assert (P1 : p = Number.one <-> (m <= n)%nat).
  { unfold p, progress.
    destruct (div_lengths n m Pm Sn Sm) as [[-> ->]|(M & E & -> & B & O)].
    - rewrite one_normal. split; [discriminate|lia].
    - rewrite (min_with_one M E B), <- O.
      destruct (Z.leb_spec (-52) E) as [L|L].
      + split; [intros _; exact L|reflexivity].
      + rewrite one_normal. split; intro H; [|lia].
        injection H as _ H. lia. }
  assert (P2 : Number.ge p Number.one = true <-> (m <= n)%nat).
  { unfold p, progress.
    destruct (div_lengths n m Pm Sn Sm) as [[-> ->]|(M & E & -> & B & O)].
    - rewrite one_normal. split; [discriminate|lia].
    - rewrite (min_with_one M E B), <- O.
      destruct (Z.leb_spec (-52) E) as [L|L].
      + split; [intros _; exact L|intros _; rewrite one_normal; reflexivity].
      + rewrite (ge_one_below M E L). split; [discriminate|lia]. }
  split; [reflexivity|]. split; [exact P1|].
  split; [rewrite color_of_progress; exact P2|].
  intros mc f st Tm Ln.
  rewrite satisfied_effect, Nat.leb_le, Tm, Ln.
  split; [symmetry; exact P1|].
  unfold fieldProgressBar. rewrite Tm, Ln, color_of_progress.
  symmetry. exact P2.
Qed.

Lemma progress_full_iff_min_length_witness :
  progress (Number.ofNat 30) (Number.ofNat 30) = Number.one /\
  backgroundColor (renderCharacterProgress (Number.ofNat 29) (Number.ofNat 30))
  <> colors_success.
Proof.
  assert (P : (0 < 30)%nat) by lia.
  assert (S29 : Z.of_nat 29 <= Number.MAX_SAFE_INTEGER)
    by (vm_compute; discriminate).
  assert (S30 : Z.of_nat 30 <= Number.MAX_SAFE_INTEGER)
    by (vm_compute; discriminate).
  split.
  - destruct (progress_full_iff_min_length 30 30 P S30 S30) as (_ & H & _).
    apply H. lia.
  - destruct (progress_full_iff_min_length 29 30 P S29 S30) as (_ & _ & H & _).
    intro C. apply H in C. lia.
Defined.

End NumberFacts.

(* ===================================================================== *)
(** ** The form as a whole: what the render loop keeps *)
(* ===================================================================== *)

Section FormLoop.

Variable mc : MinChars.t.

Lemma setContent_validationState (f : field) (v : jsstring) (st : State) :
  validationState (setContent f v st) = validationState st.
Proof. destruct f; reflexivity. Qed.

Lemma content_setContent_same (f : field) (v : jsstring) (st : State) :
  content f (setContent f v st) = v.
Proof. destruct f; reflexivity. Qed.

Lemma content_setContent_other (f g : field) (v : jsstring) (st : State) :
  f <> g -> content g (setContent f v st) = content g st.
Proof. destruct f, g; intro N; try reflexivity; contradiction N; reflexivity. Qed.

Lemma content_effect (f : field) (st : State) :
  content f (validationEffect mc st) = content f st.
Proof. destruct f; reflexivity. Qed.

(** On a validated state the effect has nothing to change. *)
Lemma validated_fixpoint (st : State) :
  validated mc st -> validationEffect mc st = st.
Proof.
  destruct st as [h i m r o v c e b]. unfold validated, validationState.
  cbn [errors isValid]. intro H.
  change (validationEffect mc (mkState h i m r o v c e b))
    with (mkState h i m r o v c
            (fst (validationState (validationEffect mc (mkState h i m r o v c e b))))
            (snd (validationState (validationEffect mc (mkState h i m r o v c e b))))).
  unfold validationState at 1 2. cbn [errors isValid].
  rewrite <- H. reflexivity.
Qed.

(** The effect's result does not depend on the flags it overwrites. *)
Lemma effect_after_effect (f : field) (v : jsstring) (st : State) :
  validationEffect mc (setContent f v (validationEffect mc st))
  = validationEffect mc (setContent f v st).
Proof. destruct f; reflexivity. Qed.

Lemma setContent_twice (f : field) (v w : jsstring) (st : State) :
  setContent f w (setContent f v st) = setContent f w st.
Proof. destruct f; reflexivity. Qed.

Lemma setContent_swap (f g : field) (v w : jsstring) (st : State) :
  f <> g ->
  setContent g w (setContent f v st) = setContent f v (setContent g w st).
Proof. destruct f, g; intro N; try reflexivity; contradiction N; reflexivity. Qed.

(** Typing into a field of a validated form leaves the form the effect
    computes from the new contents, whether or not the effect had to run. *)
Lemma step_change_validated (f : field) (v : jsstring) (st : State) :
  validated mc st ->
  fst (step mc (ChangeText f v) st) = validationEffect mc (setContent f v st).
Proof.
  intro V. unfold step, commit, handle, Handler.update, Handler.state_of.
  cbn [fst snd].
  destruct (depsChanged st (setContent f v st)) eqn:D; [reflexivity|].
  symmetry. apply validated_fixpoint. unfold validated.
  rewrite setContent_validationState, V.
  apply effect_depends_on_deps. apply depsChanged_false. exact D.
Qed.

Lemma step_other_state (ev : Event) (st : State) :
  (forall f v, ev <> ChangeText f v) ->
  fst (step mc ev st) = Handler.state_of (handle ev st) /\
  deps (Handler.state_of (handle ev st)) = deps st.
Proof.
  intro N.
  assert (D : deps (Handler.state_of (handle ev st)) = deps st).
  { destruct ev as [f v| | | | | |]; try reflexivity.
    - contradiction (N f v). reflexivity.
    - unfold handle. rewrite handleSubmit_run. reflexivity. }
  split; [|exact D].
  unfold step, commit. cbn [fst].
  rewrite depsChanged_same by (symmetry; exact D). reflexivity.
Qed.

End FormLoop.

Lemma field_eq_dec (f g : field) : {f = g} + {f <> g}.
Proof. decide equality. Defined.

Lemma committed_validationState (ev : Event) (st : State) :
  validationState (Render.committed ev st) = validationState st.
Proof. apply handle_validationState. Qed.

Lemma step_is_commit (mc : MinChars.t) (ev : Event) (st : State) :
  fst (step mc ev st) = commit mc st (Render.committed ev st).
Proof. reflexivity. Qed.

(** X1. The values [useState] starts from are not a validation state of the
    empty form, whatever the thresholds: they show no error and no
    validity at once, while the effect reports either an error or
    validity.  The run of the effect at mount makes flags and contents
    agree, and so does every state the effect leaves.  The render
    committed between an event and the effect still carries the flags of
    the render before: it agrees with its contents exactly when the event
    changes no flag. *)
Theorem initial_flags_not_validated :
  forall mc : MinChars.t,
    ~ validated mc initialState /\
    validated mc (mount mc) /\
    (forall evs, validated mc (run mc evs (mount mc))) /\
    (forall evs ev,
        let st := run mc evs (mount mc) in
        validationState (Render.committed ev st) = validationState st /\
        fst (step mc ev st) = commit mc st (Render.committed ev st) /\
        (validated mc (Render.committed ev st) <->
         validationState (fst (step mc ev st)) = validationState st)).
Proof.
  intro mc.
  split; [|split; [apply validated_effect|split; [apply reachable_validated|]]].
  - unfold validated, validationState. intro H.
    assert (E := f_equal fst H). assert (B := f_equal snd H).
    cbn [fst snd] in E, B.
    change (errors initialState) with (Errors.mk false false false false) in E.
    change (isValid initialState) with false in B.
    rewrite isValid_effect in B. cbn [forallb requiredFields] in B.
    unfold satisfied, errorFlag in B.
    change (errors (validationEffect mc initialState))
      with (newErrors mc initialState) in *.
    rewrite <- E in B. discriminate B.
  - intros evs ev st.
    assert (V : validated mc st) by apply reachable_validated.
    assert (C : validationState (Render.committed ev st) = validationState st)
      by apply committed_validationState.
    split; [exact C|]. split; [reflexivity|].
    rewrite step_is_commit. unfold commit.
    destruct (depsChanged st (Render.committed ev st)) eqn:D.
    + unfold validated. rewrite C. split; intro H; symmetry; exact H.
    + split; [intros _; exact C|intros _].
      unfold validated. rewrite C, V.
      apply effect_depends_on_deps. apply depsChanged_false. exact D.
Qed.

(** X2. In every state the validation effect leaves, what [handleSubmit]
    presents is decided by the contents: the "Success" notice exactly when
    each of the four required contents has reached its threshold, the
    "Incomplete inputs" notice exactly when one of them has not.  In the
    render committed between an event and the effect it presents what it
    presented before the event: there it follows the previous contents. *)
Theorem submit_follows_contents :
  forall (mc : MinChars.t) (evs : list Event),
    let st := run mc evs (mount mc) in
    (Handler.calls_of (handleSubmit st) = [Sample.successNotice] <->
     forall f, threshold f mc <= JS.length (content f st)) /\
    (Handler.calls_of (handleSubmit st) = [Sample.incompleteNotice] <->
     exists f, JS.length (content f st) < threshold f mc) /\
    (forall ev,
        Handler.calls_of (handleSubmit (Render.committed ev st))
        = Handler.calls_of (handleSubmit st)).
Proof.
  intros mc evs st.
  assert (V : isValid st = true <->
              forall f, threshold f mc <= JS.length (content f st)).
  { unfold st. rewrite (validated_isValid mc _ (reachable_validated mc evs)).
    rewrite forall_field. simpl.
    rewrite !andb_true_iff, !Nat.leb_le. tauto. }
  split; [|split].
  3: { intro ev.
       assert (I : isValid (Render.committed ev st) = isValid st)
         by exact (f_equal snd (committed_validationState ev st)).
       rewrite !handleSubmit_run, I. reflexivity. }
  all: rewrite handleSubmit_run; unfold Handler.calls_of; cbn [snd].
  - rewrite <- V. destruct (isValid st); split; intro H;
      try reflexivity; try discriminate H.
  - destruct (isValid st) eqn:B.
    + split; [discriminate|].
      intros [f L]. pose proof (proj1 V eq_refl f). lia.
    + split; [intros _|reflexivity].
      destruct (Nat.ltb_spec (JS.length (content Headline st)) (threshold Headline mc));
        [exists Headline; assumption|].
      destruct (Nat.ltb_spec (JS.length (content InitialSituation st))
                  (threshold InitialSituation mc));
        [exists InitialSituation; assumption|].
      destruct (Nat.ltb_spec (JS.length (content Implementation st))
                  (threshold Implementation mc));
        [exists Implementation; assumption|].
      destruct (Nat.ltb_spec (JS.length (content Results st)) (threshold Results mc));
        [exists Results; assumption|].
      assert (C : false = true); [|discriminate C].
      apply V. intro f. destruct f; assumption.
Qed.

(** X3. The toolbar's save action and [handleSubmit] read the same flag:
    in every state the action is disabled exactly when [isValid] is
    false, so pressing it while enabled presents the "Success" notice and
    the "Incomplete inputs" notice can only come from a disabled action;
    the context action carries no [disabled] flag at all.  In every state
    the validation effect leaves, the save action is enabled exactly when
    each required content has reached its threshold; in the render
    committed between an event and the effect it is enabled as it was
    before the event. *)
Theorem save_action_enabled_iff_complete :
  forall (mc : MinChars.t) (evs : list Event),
    let st := run mc evs (mount mc) in
    (forall s : State,
        exists save context,
          Toolbar.action "save" s = Some save /\
          Toolbar.action "context" s = Some context /\
          Toolbar.disabled context = None /\
          Toolbar.disabled save = Some (negb (isValid s)) /\
          (Toolbar.disabled save = Some false ->
           Handler.calls_of (Toolbar.onPress save s) = [Sample.successNotice]) /\
          (Handler.calls_of (Toolbar.onPress save s) = [Sample.incompleteNotice] ->
           Toolbar.disabled save = Some true)) /\
    (isValid st = true <->
     forall f, threshold f mc <= JS.length (content f st)) /\
    (forall ev, isValid (Render.committed ev st) = isValid st).
Proof.
  intros mc evs st.
  split; [|split].
  - intro s. eexists. eexists.
    split; [reflexivity|]. split; [reflexivity|]. split; [reflexivity|].
    split; [reflexivity|].
    cbn [Toolbar.disabled Toolbar.onPress].
    rewrite handleSubmit_run. unfold Handler.calls_of. cbn [snd].
    destruct (isValid s); split; intro H;
      try reflexivity; try discriminate H.
  - unfold st. rewrite (validated_isValid mc _ (reachable_validated mc evs)).
    rewrite forall_field. simpl.
    rewrite !andb_true_iff, !Nat.leb_le. tauto.
  - intro ev. exact (f_equal snd (committed_validationState ev st)).
Qed.

(** X4. Nothing but typing into one of the four required fields touches
    the validation: after any other event -- typing into the ROI, opening,
    saving or closing the context, pressing save or back -- the error
    flags, the aggregate and the four contents are what they were. *)
Theorem only_required_edits_revalidate :
  forall (mc : MinChars.t) (ev : Event) (st : State),
    (forall f v, ev <> ChangeText f v) ->
    validationState (fst (step mc ev st)) = validationState st /\
    deps (fst (step mc ev st)) = deps st.
Proof.
  intros mc ev st N.
  destruct (step_other_state mc ev st N) as [E D].
  rewrite E. split; [apply handle_validationState|exact D].
Qed.

Lemma only_required_edits_revalidate_witness :
  validationState
    (fst (step MIN_CHARS (ChangeRoi (Sample.filled 49%N 4)) Sample.oneShort))
  = validationState Sample.oneShort.
Proof.
  apply (only_required_edits_revalidate MIN_CHARS
           (ChangeRoi (Sample.filled 49%N 4)) Sample.oneShort).
  intros f v. discriminate.
Defined.

(** X5. Typing into one required field of a validated form changes that
    field's content and error flag and no other field's: the edited field
    holds the new text and is flagged exactly when the text is shorter
    than its threshold, and every other field keeps content and flag. *)
Theorem edit_touches_one_field :
  forall (mc : MinChars.t) (f g : field) (v : jsstring) (st : State),
    validated mc st ->
    f <> g ->
    let st' := fst (step mc (ChangeText f v) st) in
    content f st' = v /\
    errorFlag f st' = (JS.length v <? threshold f mc) /\
    content g st' = content g st /\
    errorFlag g st' = errorFlag g st.
Proof.
  intros mc f g v st V N st'. unfold st'.
  rewrite (step_change_validated mc f v st V).
  rewrite !errorFlag_effect, !content_effect.
  rewrite content_setContent_same, (content_setContent_other f g v st N).
  repeat split.
  rewrite <- errorFlag_effect. unfold errorFlag.
  assert (E := f_equal fst V). cbn [fst validationState] in E.
  rewrite E. reflexivity.
Qed.

Lemma edit_touches_one_field_witness :
  errorFlag Results
    (fst (step MIN_CHARS (ChangeText Headline (Sample.filled 49%N 4))
            (Sample.typedWith 97%N)))
  = errorFlag Results (Sample.typedWith 97%N).
Proof.
  apply (edit_touches_one_field MIN_CHARS Headline Results
           (Sample.filled 49%N 4) (Sample.typedWith 97%N)).
  - vm_compute. reflexivity.
  - discriminate.
Defined.

(** X6. On a validated form, edits of two different required fields
    commute: typing [v] into one and then [w] into the other leaves the
    same state as the two edits in the other order. *)
Theorem edits_of_different_fields_commute :
  forall (mc : MinChars.t) (f g : field) (v w : jsstring) (st : State),
    validated mc st ->
    f <> g ->
    run mc [ChangeText f v; ChangeText g w] st
    = run mc [ChangeText g w; ChangeText f v] st.
Proof.
  intros mc f g v w st V N. cbn [run].
  rewrite (step_change_validated mc g w _ (step_validated mc (ChangeText f v) st V)).
  rewrite (step_change_validated mc f v _ (step_validated mc (ChangeText g w) st V)).
  rewrite !(step_change_validated mc _ _ st V), !effect_after_effect.
  rewrite (setContent_swap f g v w st N). reflexivity.
Qed.

Lemma edits_of_different_fields_commute_witness :
  run MIN_CHARS
    [ChangeText Headline (Sample.filled 49%N 4);
     ChangeText Results (Sample.filled 50%N 160)] Sample.oneShort
  = run MIN_CHARS
      [ChangeText Results (Sample.filled 50%N 160);
       ChangeText Headline (Sample.filled 49%N 4)] Sample.oneShort.
Proof.
  apply (edits_of_different_fields_commute MIN_CHARS Headline Results
           (Sample.filled 49%N 4) (Sample.filled 50%N 160) Sample.oneShort).
  - vm_compute. reflexivity.
  - discriminate.
Defined.

(** X7. On a validated form the last edit of a field wins: typing [v] and
    then [w] into the same field leaves the state that typing [w] alone
    leaves; no trace of the intermediate text remains in contents or
    flags. *)
Theorem last_edit_wins :
  forall (mc : MinChars.t) (f : field) (v w : jsstring) (st : State),
    validated mc st ->
    run mc [ChangeText f v; ChangeText f w] st = run mc [ChangeText f w] st.
Proof.
  intros mc f v w st V. cbn [run].
  rewrite (step_change_validated mc f w _ (step_validated mc (ChangeText f v) st V)).
  rewrite !(step_change_validated mc _ _ st V), effect_after_effect.
  rewrite setContent_twice. reflexivity.
Qed.

Lemma last_edit_wins_witness :
  run MIN_CHARS
    [ChangeText Headline (Sample.filled 49%N 4);
     ChangeText Headline (Sample.filled 50%N 40)] Sample.oneShort
  = run MIN_CHARS [ChangeText Headline (Sample.filled 50%N 40)] Sample.oneShort.
Proof.
  apply (last_edit_wins MIN_CHARS Headline
           (Sample.filled 49%N 4) (Sample.filled 50%N 40) Sample.oneShort).
  vm_compute. reflexivity.
Defined.

(** X8. Replacing the content of a required field by a text shorter than
    its threshold makes the form invalid, whatever the other fields hold:
    the field is flagged, the aggregate is false, and [handleSubmit]
    presents the "Incomplete inputs" notice. *)
Theorem short_field_blocks_submit :
  forall (mc : MinChars.t) (f : field) (v : jsstring) (st : State),
    validated mc st ->
    JS.length v < threshold f mc ->
    let st' := fst (step mc (ChangeText f v) st) in
    errorFlag f st' = true /\
    isValid st' = false /\
    Handler.calls_of (handleSubmit st') = [Sample.incompleteNotice].
Proof.
  intros mc f v st V L st'.
  assert (E : errorFlag f st' = true).
  { unfold st'. rewrite (step_change_validated mc f v st V), errorFlag_effect.
    rewrite content_setContent_same. apply Nat.ltb_lt. exact L. }
  assert (B : isValid st' = false).
  { unfold st' in *. rewrite (step_change_validated mc f v st V) in *.
    rewrite isValid_effect. unfold satisfied. cbn [forallb requiredFields].
    destruct f; rewrite E; cbn [negb andb]; rewrite ?andb_false_r; reflexivity. }
  split; [exact E|]. split; [exact B|].
  rewrite handleSubmit_run, B. reflexivity.
Qed.

Lemma short_field_blocks_submit_witness :
  isValid
    (fst (step MIN_CHARS (ChangeText Results (Sample.filled 49%N 149))
            (Sample.typedWith 97%N)))
  = false.
Proof.
  apply (short_field_blocks_submit MIN_CHARS Results
           (Sample.filled 49%N 149) (Sample.typedWith 97%N)).
  - vm_compute. reflexivity.
  - vm_compute. lia.
Defined.

(** X9. A valid form stays valid under every edit that does not shorten
    the edited field: replacing a required content by a text at least as
    long keeps the aggregate true. *)
Theorem longer_edit_keeps_form_valid :
  forall (mc : MinChars.t) (f : field) (v : jsstring) (st : State),
    validated mc st ->
    isValid st = true ->
    JS.length (content f st) <= JS.length v ->
    isValid (fst (step mc (ChangeText f v) st)) = true.
Proof.
  intros mc f v st V B L.
  rewrite (step_change_validated mc f v st V).
  rewrite (validated_isValid mc st V) in B.
  apply isValid_effect_iff. intro g. rewrite satisfied_effect.
  cbn [forallb requiredFields] in B.
  rewrite !andb_true_iff, !Nat.leb_le in B.
  apply Nat.leb_le.
  destruct (field_eq_dec f g) as [<-|N].
  - rewrite content_setContent_same. destruct f; lia.
  - rewrite (content_setContent_other f g v st N). destruct g; lia.
Qed.

Lemma longer_edit_keeps_form_valid_witness :
  isValid
    (fst (step MIN_CHARS (ChangeText Results (Sample.filled 49%N 151))
            (Sample.typedWith 97%N)))
  = true.
Proof.
  apply (longer_edit_keeps_form_valid MIN_CHARS Results
           (Sample.filled 49%N 151) (Sample.typedWith 97%N)).
  - vm_compute. reflexivity.
  - vm_compute. reflexivity.
  - vm_compute. lia.
Defined.

Lemma step_contextForOlivia (mc : MinChars.t) (ev : Event) (st : State) :
  contextForOlivia (fst (step mc ev st))
  = match ev with
    | ContextSave c => c
    | _ => contextForOlivia st
    end.
Proof.
  unfold step, commit. cbn [fst].
  destruct (depsChanged st (Handler.state_of (handle ev st)));
    cbn [validationEffect];
    (destruct ev as [f v| | | | | |]; try reflexivity;
     [destruct f; reflexivity
     |unfold handle; rewrite handleSubmit_run; reflexivity]).
Qed.

(** X10. The context noted for the assistant is what was saved last:
    after any sequence of events it is the text of the last
    [handleContextSave], or the earlier one if none occurred -- typing,
    submitting, opening and closing the dialog never alter it -- and saving
    does not itself close the dialog. *)
Theorem saved_context_persists :
  forall (mc : MinChars.t) (evs : list Event) (st : State),
    contextForOlivia (run mc evs st)
    = Toolbar.lastSaved evs (contextForOlivia st) /\
    (forall c, contextModalVisible (fst (step mc (ContextSave c) st))
               = contextModalVisible st).
Proof.
  intros mc evs st. split.
  - revert st. induction evs as [|ev evs IH]; intro st; [reflexivity|].
    cbn [run]. rewrite IH, step_contextForOlivia.
    destruct ev; reflexivity.
  - intro c. unfold step, commit. cbn [fst].
    destruct (depsChanged st _); reflexivity.
Qed.

(* ===================================================================== *)
(** ** The progress bar at its ends and at a zero threshold *)
(* ===================================================================== *)

Section ProgressFacts.

Local Open Scope Z_scope.

(** The three shapes the progress value takes for a positive threshold. *)
Lemma progress_cases (n m : nat) :
  (0 < m)%nat ->
  Z.of_nat n <= Number.MAX_SAFE_INTEGER ->
  Z.of_nat m <= Number.MAX_SAFE_INTEGER ->
  ((m <= n)%nat /\
   progress (Number.ofNat n) (Number.ofNat m) = Number.one) \/
  (n = 0%nat /\
   progress (Number.ofNat n) (Number.ofNat m) = S754_zero false) \/
  ((0 < n < m)%nat /\
   exists (M : positive) (E : Z),
     progress (Number.ofNat n) (Number.ofNat m) = S754_finite false M E /\
     E < -52).
Proof.
  intros Pm Sn Sm. unfold progress.
  destruct (div_lengths n m Pm Sn Sm) as [[-> ->]|(M & E & D & B & O)].
  - right. left. split; reflexivity.
  - destruct n as [|n'].
    + exfalso. change Number.MAX_SAFE_INTEGER with (Number.two53 - 1) in Sm.
      destruct (ofNat_normal m) as (Mm & b & Em & _); [lia|].
      rewrite Em in D. discriminate D.
    + rewrite D, (min_with_one M E B).
      destruct (Z.leb_spec (-52) E) as [L|L].
      * left. split; [apply O; exact L|reflexivity].
      * right. right. split; [lia|]. exists M, E. split; [reflexivity|exact L].
Qed.

(** X11. For a positive threshold the progress value is a number between
    zero and one, both included, and never NaN: the bar cannot overflow
    its track, however long the content. *)
Theorem progress_within_unit_interval :
  forall currentLength minChars : nat,
    (0 < minChars)%nat ->
    Z.of_nat currentLength <= Number.MAX_SAFE_INTEGER ->
    Z.of_nat minChars <= Number.MAX_SAFE_INTEGER ->
    let p := progress (Number.ofNat currentLength) (Number.ofNat minChars) in
    p <> S754_nan /\
    Number.ge p (Number.ofNat 0) = true /\
    Number.ge Number.one p = true.
Proof.
  intros n m Pm Sn Sm p. unfold p.
  change (Number.ofNat 0) with (S754_zero false).
  destruct (progress_cases n m Pm Sn Sm)
    as [[_ ->]|[[_ ->]|[_ (M & E & -> & L)]]].
  - rewrite one_normal. repeat split. discriminate.
  - rewrite one_normal. repeat split. discriminate.
  - rewrite one_normal. split; [discriminate|]. split; [reflexivity|].
    unfold Number.ge, SFleb, SFcompare.
    rewrite (proj2 (Z.compare_lt_iff E (-52))) by exact L. reflexivity.
Qed.

Lemma progress_within_unit_interval_witness :
  Number.ge Number.one (progress (Number.ofNat 450) (Number.ofNat 300)) = true.
Proof.
  assert (P : (0 < 300)%nat) by lia.
  assert (S1 : Z.of_nat 450 <= Number.MAX_SAFE_INTEGER)
    by (vm_compute; discriminate).
  assert (S2 : Z.of_nat 300 <= Number.MAX_SAFE_INTEGER)
    by (vm_compute; discriminate).
  exact (proj2 (proj2 (progress_within_unit_interval 450 300 P S1 S2))).
Defined.

(** X12. The width of the bar at its two ends, for a positive threshold:
    once the content has reached the threshold the width is exactly 100
    percent, however much longer the content gets, and for an empty
    content it is exactly 0 percent. *)
Theorem bar_width_at_the_ends :
  forall currentLength minChars : nat,
    (0 < minChars)%nat ->
    Z.of_nat currentLength <= Number.MAX_SAFE_INTEGER ->
    Z.of_nat minChars <= Number.MAX_SAFE_INTEGER ->
    let bar := renderCharacterProgress (Number.ofNat currentLength)
                                       (Number.ofNat minChars) in
    ((minChars <= currentLength)%nat ->
     widthPercent bar = Number.ofNat 100) /\
    (currentLength = 0%nat -> widthPercent bar = Number.ofNat 0).
Proof.
  intros n m Pm Sn Sm bar. unfold bar, renderCharacterProgress.
  cbn [widthPercent].
  destruct (progress_cases n m Pm Sn Sm)
    as [[Le ->]|[[N ->]|[L (M & E & -> & _)]]].
  - split; intro H.
    + vm_compute. reflexivity.
    + exfalso. lia.
  - split; intro H.
    + exfalso. lia.
    + vm_compute. reflexivity.
  - split; intro H; exfalso; lia.
Qed.

Lemma bar_width_at_the_ends_witness :
  widthPercent (renderCharacterProgress (Number.ofNat 450) (Number.ofNat 300))
  = Number.ofNat 100.
Proof.
  assert (P : (0 < 300)%nat) by lia.
  assert (S1 : Z.of_nat 450 <= Number.MAX_SAFE_INTEGER)
    by (vm_compute; discriminate).
  assert (S2 : Z.of_nat 300 <= Number.MAX_SAFE_INTEGER)
    by (vm_compute; discriminate).
  apply (proj1 (bar_width_at_the_ends 450 300 P S1 S2)). lia.
Defined.

(** X13. At a zero threshold the bar and the flag part ways on an empty
    content.  The flag of such a field is satisfied for every content; the
    progress value is one for every non-empty content, but for the empty
    content it is 0/0, that is NaN, and the bar does not take the success
    colour. *)
Theorem zero_threshold_progress :
  forall currentLength : nat,
    Z.of_nat currentLength <= Number.MAX_SAFE_INTEGER ->
    let bar := renderCharacterProgress (Number.ofNat currentLength)
                                       (Number.ofNat 0) in
    let p := progress (Number.ofNat currentLength) (Number.ofNat 0) in
    (currentLength = 0%nat -> p = S754_nan /\ backgroundColor bar = colors_primary) /\
    ((0 < currentLength)%nat ->
     p = Number.one /\ backgroundColor bar = colors_success) /\
    (forall mc f st,
        threshold f mc = 0%nat ->
        JS.length (content f st) = currentLength ->
        satisfied f (validationEffect mc st) = true).
Proof.
  intros n Sn bar p. unfold bar, p, renderCharacterProgress, progress.
  cbn [backgroundColor]. change (Number.ofNat 0) with (S754_zero false).
  split; [|split].
  - intros ->. change (Number.ofNat 0) with (S754_zero false).
    split; reflexivity.
  - intro Pn.
    change Number.MAX_SAFE_INTEGER with (Number.two53 - 1) in Sn.
    destruct (ofNat_normal n) as (M & a & -> & _); [lia|].
    rewrite one_normal. split; reflexivity.
  - intros mc f st T _. rewrite satisfied_effect, T. reflexivity.
Qed.

Lemma zero_threshold_progress_witness :
  progress (Number.ofNat 0) (Number.ofNat 0) = S754_nan /\
  progress (Number.ofNat 7) (Number.ofNat 0) = Number.one.
Proof.
  assert (S0 : Z.of_nat 0 <= Number.MAX_SAFE_INTEGER)
    by (vm_compute; discriminate).
  assert (S7 : Z.of_nat 7 <= Number.MAX_SAFE_INTEGER)
    by (vm_compute; discriminate).
  split.
  - apply (proj1 (zero_threshold_progress 0 S0)). reflexivity.
  - apply (proj1 (proj2 (zero_threshold_progress 7 S7))). lia.
Defined.

End ProgressFacts.

(* ===================================================================== *)
(** ** The wizard: trimming, validity and the event loop *)
(* ===================================================================== *)

Lemma dropWhile_head (p : code_unit -> bool) (s r : jsstring) (c : code_unit) :
  JS.dropWhile p s = c :: r -> p c = false.
Proof.
  induction s as [|a s IH]; simpl; [discriminate|].
  destruct (p a) eqn:Pa; [exact IH|].
  intro H. injection H as <- _. exact Pa.
Qed.

Lemma dropWhile_fixed (p : code_unit -> bool) (s : jsstring) :
  (forall c r, s = c :: r -> p c = false) -> JS.dropWhile p s = s.
Proof.
  destruct s as [|a s]; intro H; [reflexivity|].
  simpl. rewrite (H a s eq_refl). reflexivity.
Qed.

Lemma dropWhile_snoc (p : code_unit -> bool) (s : jsstring) (c : code_unit) :
  p c = false -> JS.dropWhile p (s ++ [c]) = JS.dropWhile p s ++ [c].
Proof.
  intro Pc. induction s as [|a s IH]; simpl.
  - rewrite Pc. reflexivity.
  - destruct (p a); [exact IH|reflexivity].
Qed.

Lemma trimEnd_decompose (s : jsstring) :
  exists post, s = JS.trimEnd s ++ post /\ forallb JS.isWhiteSpace post = true.
Proof.
  unfold JS.trimEnd.
  destruct (dropWhile_suffix JS.isWhiteSpace (rev s)) as [pre [E F]].
  exists (rev pre). split.
  - rewrite <- rev_app_distr, <- E, rev_involutive. reflexivity.
  - rewrite forallb_rev. exact F.
Qed.

Lemma trimEnd_last (s r : jsstring) (c : code_unit) :
  JS.trimEnd s = r ++ [c] -> JS.isWhiteSpace c = false.
Proof.
  unfold JS.trimEnd. intro H.
  apply (f_equal (@rev code_unit)) in H.
  rewrite rev_involutive, rev_app_distr in H. simpl in H.
  exact (dropWhile_head _ _ _ _ H).
Qed.

Lemma trimEnd_cons (s : jsstring) (c : code_unit) :
  JS.isWhiteSpace c = false -> JS.trimEnd (c :: s) = c :: JS.trimEnd s.
Proof.
  intro W. unfold JS.trimEnd. simpl rev.
  rewrite (dropWhile_snoc _ _ _ W), rev_app_distr. reflexivity.
Qed.

Lemma trim_head (s r : jsstring) (c : code_unit) :
  JS.trim s = c :: r -> JS.isWhiteSpace c = false.
Proof.
  unfold JS.trim, JS.trimStart.
  destruct (JS.dropWhile JS.isWhiteSpace s) as [|a d] eqn:D.
  - discriminate.
  - pose proof (dropWhile_head _ _ _ _ D) as W.
    rewrite (trimEnd_cons d a W). intro H. injection H as <- _. exact W.
Qed.

Lemma wizard_isValid_not_blank (st : Wizard1.State) :
  Wizard1.isValid st = negb (forallb JS.isWhiteSpace (Wizard1.answer st)).
Proof.
  rewrite wizard_isValid_truthy.
  destruct (forallb JS.isWhiteSpace (Wizard1.answer st)) eqn:F.
  - apply trim_nil_iff in F. rewrite F. reflexivity.
  - destruct (JS.trim (Wizard1.answer st)) eqn:T; [|reflexivity].
    apply trim_nil_iff in T. congruence.
Qed.

(** X14. What the wizard tests, [answer.trim()], is the answer without its
    leading and trailing white space: the answer is a run of white space,
    then the trimmed text, then a run of white space; the trimmed text
    neither begins nor ends with white space; and trimming it again
    changes nothing. *)
Theorem trim_shape :
  forall s : jsstring,
    (exists pre post,
        s = pre ++ JS.trim s ++ post /\
        forallb JS.isWhiteSpace pre = true /\
        forallb JS.isWhiteSpace post = true) /\
    (forall c r, JS.trim s = c :: r -> JS.isWhiteSpace c = false) /\
    (forall r c, JS.trim s = r ++ [c] -> JS.isWhiteSpace c = false) /\
    JS.trim (JS.trim s) = JS.trim s.
Proof.
  intro s.
  assert (H1 : forall c r, JS.trim s = c :: r -> JS.isWhiteSpace c = false).
  { intros c r. apply trim_head. }
  assert (H2 : forall r c, JS.trim s = r ++ [c] -> JS.isWhiteSpace c = false).
  { intros r c. unfold JS.trim. apply trimEnd_last. }
  split; [|split; [exact H1|split; [exact H2|]]].
  - destruct (dropWhile_suffix JS.isWhiteSpace s) as [pre [E F]].
    destruct (trimEnd_decompose (JS.trimStart s)) as [post [E' F']].
    exists pre, post. split; [|split; assumption].
    unfold JS.trim. rewrite <- E'. exact E.
  - unfold JS.trim at 1. unfold JS.trimStart.
    rewrite (dropWhile_fixed JS.isWhiteSpace (JS.trim s) H1).
    unfold JS.trimEnd. rewrite dropWhile_fixed.
    + apply rev_involutive.
    + intros c r E. apply (H2 (rev r) c).
      apply (f_equal (@rev code_unit)) in E.
      rewrite rev_involutive in E. exact E.
Qed.

(** X15. The wizard's validity of a concatenation: an answer made of two
    parts is valid exactly when one of the parts alone would be.  So
    appending to a valid answer keeps it valid, and no amount of white
    space added at either end changes the validity. *)
Theorem validity_of_concatenation :
  forall (a b : jsstring) (st : Wizard1.State),
    Wizard1.isValid (Wizard1.setAnswer (JS.concat a b) st)
    = Wizard1.isValid (Wizard1.setAnswer a st)
      || Wizard1.isValid (Wizard1.setAnswer b st).
Proof.
  intros a b st. rewrite !wizard_isValid_not_blank.
  cbn [Wizard1.answer Wizard1.setAnswer]. unfold JS.concat.
  rewrite forallb_app. apply negb_andb.
Qed.

Lemma wizard_handle_calls (ev : Wizard1View.Event) (st : Wizard1.State) :
  forall c, In c (Handler.calls_of (Wizard1View.handle ev st)) ->
            c = navigate router_back \/
            (c = console_log "Antwort:" (Wizard1.answer st) /\
             Wizard1.isValid st = true).
Proof.
  intros c H. destruct ev as [h| |v| |]; simpl in H; try contradiction.
  - unfold Wizard1.pressNext, Wizard1.nextDisabled in H.
    destruct (Wizard1.isValid st) eqn:V; cbn [negb] in H.
    + rewrite handleNext_run, V in H. simpl in H.
      destruct H as [<-|[]]. right. split; reflexivity.
    + simpl in H. contradiction.
  - destruct H as [<-|[]]. left. reflexivity.
Qed.

(** X16. Whatever the sequence of keyboard events, edits and presses, the
    wizard never logs a blank answer: every [console.log] it issues
    carries an answer that holds a code unit which is not white space, and
    the only navigation it ever asks for is going back. *)
Theorem wizard_logs_no_blank_answer :
  forall (evs : list Wizard1View.Event) (st : Wizard1.State) (c : HostCall),
    In c (snd (Wizard1View.run evs st)) ->
    c = navigate router_back \/
    exists a, c = console_log "Antwort:" a /\
              exists u, In u a /\ JS.isWhiteSpace u = false.
Proof.
  induction evs as [|ev evs IH]; intros st c H; [contradiction|].
  cbn [Wizard1View.run snd] in H. apply in_app_or in H as [H|H].
  - destruct (wizard_handle_calls ev st c H) as [->|[-> V]]; [left; reflexivity|].
    right. exists (Wizard1.answer st). split; [reflexivity|].
    rewrite wizard_isValid_truthy in V. apply truthy_trim_iff. exact V.
  - exact (IH _ c H).
Qed.

Lemma wizard_logs_no_blank_answer_witness :
  console_log "Antwort:" (Sample.filled 97%N 2) = navigate router_back \/
  exists a, console_log "Antwort:" (Sample.filled 97%N 2) = console_log "Antwort:" a /\
            exists u, In u a /\ JS.isWhiteSpace u = false.
Proof.
  apply (wizard_logs_no_blank_answer
           [Wizard1View.ChangeAnswer (Sample.filled 97%N 2); Wizard1View.PressNext]
           Wizard1.initialState).
  vm_compute. left. reflexivity.
Defined.

Lemma wizard_handle_state (ev : Wizard1View.Event) (st : Wizard1.State) :
  Wizard1.answer (Handler.state_of (Wizard1View.handle ev st))
  = match ev with
    | Wizard1View.ChangeAnswer v => v
    | _ => Wizard1.answer st
    end /\
  Wizard1.keyboardHeight (Handler.state_of (Wizard1View.handle ev st))
  = match ev with
    | Wizard1View.KeyboardDidShow h => h
    | Wizard1View.KeyboardDidHide => Number.ofNat 0
    | _ => Wizard1.keyboardHeight st
    end.
Proof.
  destruct ev as [h| |v| |]; try (split; reflexivity).
  unfold Wizard1View.handle, Wizard1.pressNext.
  destruct (Wizard1.nextDisabled st); [split; reflexivity|].
  rewrite handleNext_run. split; reflexivity.
Qed.

(** X17. The wizard's answer and its layout live apart.  After any
    sequence of events the answer is the text of the last edit -- pressing
    Next or back and keyboard events never clear or change it -- and the
    toolbar sits at the height the last keyboard event reported, whatever
    Number that is, zero after the keyboard hid, with the scroll padding
    at 60 exactly while that height is greater than zero. *)
Theorem wizard_state_after_events :
  forall (evs : list Wizard1View.Event) (st : Wizard1.State)
         (spacing_l : Number.t),
    let st' := fst (Wizard1View.run evs st) in
    Wizard1.answer st' = Wizard1View.lastAnswer evs (Wizard1.answer st) /\
    Wizard1View.toolbarBottom st'
    = Wizard1View.lastKeyboardHeight evs (Wizard1.keyboardHeight st) /\
    Wizard1View.paddingBottom spacing_l st'
    = (if Number.gt
            (Wizard1View.lastKeyboardHeight evs (Wizard1.keyboardHeight st))
            (Number.ofNat 0)
       then Number.ofNat 60 else spacing_l).
Proof.
  intros evs st spacing_l st'.
  assert (H : Wizard1.answer st' = Wizard1View.lastAnswer evs (Wizard1.answer st) /\
              Wizard1.keyboardHeight st'
              = Wizard1View.lastKeyboardHeight evs (Wizard1.keyboardHeight st)).
  { unfold st'. clear st'. revert st.
    induction evs as [|ev evs IH]; intro st; [split; reflexivity|].
    cbn [Wizard1View.run fst].
    destruct (IH (Handler.state_of (Wizard1View.handle ev st))) as [A K].
    destruct (wizard_handle_state ev st) as [A' K'].
    rewrite A, K, A', K'. destruct ev; split; reflexivity. }
  destruct H as [A K]. split; [exact A|].
  unfold Wizard1View.toolbarBottom, Wizard1View.paddingBottom.
  rewrite K. split; reflexivity.
Qed.

(* ===================================================================== *)
(** ** The error display of the case-studies tab *)
(* ===================================================================== *)

Section ErrorDisplay.

Import CaseStudiesTab.

Lemma messageForType_not_null (type : any) :
  messageForType type <> RenderedNull.
Proof.
  unfold messageForType.
  destruct (strictEqualsLit type "network"); [discriminate|].
  destruct (strictEqualsLit type "not_found"); [discriminate|].
  destruct (strictEqualsLit type "server"); discriminate.
Qed.

Lemma messageForType_generic_iff (type : any) :
  messageForType type = genericError <-> knownType type = false.
Proof.
  unfold messageForType, knownType, genericError.
  destruct (strictEqualsLit type "network"); [split; discriminate|].
  destruct (strictEqualsLit type "not_found"); [split; discriminate|].
  destruct (strictEqualsLit type "server"); [split; discriminate|].
  split; reflexivity.
Qed.

(** What [renderError] does on an object, by the two properties it reads. *)
Lemma renderError_object (props : list (jsstring * any)) :
  renderError (Object props)
  = Some match lookup (lit "type") props, lookup (lit "shouldDisplay") props with
         | Some type, Some flag =>
             if ToBoolean flag then messageForType type else genericError
         | _, _ => genericError
         end.
Proof.
  unfold renderError, hasProperty, getProperty.
  cbn [ToBoolean typeofIsObject negb andb].
  destruct (lookup (lit "type") props) as [type|]; [|reflexivity].
  destruct (lookup (lit "shouldDisplay") props) as [flag|]; [|reflexivity].
  destruct (ToBoolean flag); reflexivity.
Qed.

Lemma renderError_not_object (err : any) :
  (forall props, err <> Object props) ->
  renderError err
  = Some (if ToBoolean err then genericError else RenderedNull).
Proof.
  intro N. destruct err as [| |b|x|s| |props]; try reflexivity.
  - destruct b; reflexivity.
  - destruct x as [z|i| |sg m e]; reflexivity.
  - destruct s; reflexivity.
  - contradiction (N props). reflexivity.
Qed.

(** On plain values [renderError] always returns, [null] exactly for a
    falsy error. *)
Lemma renderError_plain (err : any) :
  exists r,
    renderError err = Some r /\
    (r = RenderedNull <-> ToBoolean err = false).
Proof.
  destruct err as [| |b|x|s| |props];
    try (eexists; split; [reflexivity|split; (reflexivity || discriminate)]).
  - destruct b; eexists; (split; [reflexivity|split; (reflexivity || discriminate)]).
  - destruct x as [z|i| |sg m e];
      eexists; (split; [reflexivity|split; (reflexivity || discriminate)]).
  - destruct s; eexists; (split; [reflexivity|split; (reflexivity || discriminate)]).
  - rewrite renderError_object. eexists. split; [reflexivity|].
    cbn [ToBoolean]. split; [|discriminate].
    destruct (lookup (lit "type") props) as [type|]; [|discriminate].
    destruct (lookup (lit "shouldDisplay") props) as [flag|]; [|discriminate].
    destruct (ToBoolean flag); [|discriminate].
    intro H. contradiction (messageForType_not_null type H).
Qed.

Lemma renderErrorWith_null_iff (O : ObjectModel) (err : any) (r : Rendered) :
  renderErrorWith O err = Some r ->
  (r = RenderedNull <-> ToBoolean err = false).
Proof.
  unfold renderErrorWith.
  destruct (ToBoolean err); cbn [negb andb].
  2: { intro H. injection H as <-. split; reflexivity. }
  destruct (typeofIsObject err); cbn [negb].
  2: { intro H. injection H as <-. split; discriminate. }
  destruct (has O "type" err) as [[|]|]; try discriminate;
    [|intro H; injection H as <-; split; discriminate].
  destruct (has O "shouldDisplay" err) as [[|]|]; try discriminate;
    [|intro H; injection H as <-; split; discriminate].
  destruct (get O "shouldDisplay" err) as [flag|]; try discriminate.
  destruct (ToBoolean flag);
    [|intro H; injection H as <-; split; discriminate].
  destruct (get O "type" err) as [type|]; try discriminate.
  intro H. injection H as <-. split; [|discriminate].
  intro N. contradiction (messageForType_not_null type N).
Qed.

Lemma renderErrorWith_throws (O : ObjectModel) (err : any) :
  renderErrorWith O err = None ->
  ToBoolean err = true /\ typeofIsObject err = true /\
  (has O "type" err = None \/ has O "shouldDisplay" err = None \/
   get O "shouldDisplay" err = None \/ get O "type" err = None).
Proof.
  unfold renderErrorWith.
  destruct (ToBoolean err); [|discriminate].
  destruct (typeofIsObject err); [|discriminate]. cbn [negb andb].
  intro H. split; [reflexivity|]. split; [reflexivity|].
  destruct (has O "type" err) as [[|]|];
    [|discriminate H|left; reflexivity].
  destruct (has O "shouldDisplay" err) as [[|]|];
    [|discriminate H|right; left; reflexivity].
  destruct (get O "shouldDisplay" err) as [flag|];
    [|right; right; left; reflexivity].
  destruct (ToBoolean flag); [|discriminate H].
  destruct (get O "type" err); [discriminate H|].
  right. right. right. reflexivity.
Qed.

(** X18. [renderError] returns [null] exactly for a falsy error and the
    generic element for every truthy value that is not an object, without
    touching it: [in] and the property reads are only reached on objects.
    It throws only when one of the four operations it performs on such an
    object -- ['type' in err], ['shouldDisplay' in err],
    [err.shouldDisplay], [err.type] -- throws, as an accessor or a proxy
    can; on primitives, functions and objects with plain data properties
    it never throws. *)
Theorem renderError_throws_only_from_object :
  forall (O : ObjectModel) (err : any),
    (ToBoolean err = false -> renderErrorWith O err = Some RenderedNull) /\
    (ToBoolean err = true -> typeofIsObject err = false ->
     renderErrorWith O err = Some genericError) /\
    (renderErrorWith O err = None ->
     ToBoolean err = true /\ typeofIsObject err = true /\
     (has O "type" err = None \/ has O "shouldDisplay" err = None \/
      get O "shouldDisplay" err = None \/ get O "type" err = None)) /\
    (forall r, renderErrorWith O err = Some r ->
               (r = RenderedNull <-> ToBoolean err = false)) /\
    (exists r, renderErrorWith plain err = Some r /\ renderError err = Some r).
Proof.
  intros O err.
  split; [intro B; unfold renderErrorWith; rewrite B; reflexivity|].
  split; [intros B T; unfold renderErrorWith; rewrite B, T; reflexivity|].
  split; [apply renderErrorWith_throws|].
  split; [intro r; apply renderErrorWith_null_iff|].
  destruct (renderError_plain err) as [r [E _]].
  exists r. split; exact E.
Qed.

Lemma renderError_throws_only_from_object_witness :
  ToBoolean (displayable (Str (lit "network")) (Bool true)) = true /\
  typeofIsObject (displayable (Str (lit "network")) (Bool true)) = true /\
  (has throwingGetters "type"
     (displayable (Str (lit "network")) (Bool true)) = None \/
   has throwingGetters "shouldDisplay"
     (displayable (Str (lit "network")) (Bool true)) = None \/
   get throwingGetters "shouldDisplay"
     (displayable (Str (lit "network")) (Bool true)) = None \/
   get throwingGetters "type"
     (displayable (Str (lit "network")) (Bool true)) = None).
Proof.
  apply (renderError_throws_only_from_object throwingGetters
           (displayable (Str (lit "network")) (Bool true))).
  reflexivity.
Defined.

(** X19. A message of its own -- network, not found, server -- is shown
    for exactly one kind of error: an object that has a [shouldDisplay]
    property holding a truthy value and a [type] property holding one of
    the three known strings.  Every other truthy error, a known type with
    a falsy or missing [shouldDisplay] included, gets the generic
    message. *)
Theorem specific_message_iff_displayable :
  forall (err : any) (r : Rendered),
    (renderError err = Some r /\ r <> RenderedNull /\ r <> genericError) <->
    (exists props type flag,
        err = Object props /\
        lookup (lit "type") props = Some type /\
        lookup (lit "shouldDisplay") props = Some flag /\
        ToBoolean flag = true /\
        knownType type = true /\
        r = messageForType type).
Proof.
  intros err r. split.
  - intros (E & N1 & N2).
    destruct err as [| |[|]|[z|i| |sg m e]|[|c s]| |props];
      try (exfalso; injection E as <-;
           first [apply N1; reflexivity | apply N2; reflexivity]).
    rewrite renderError_object in E. injection E as <-.
    destruct (lookup (lit "type") props) as [type|] eqn:T;
      [|contradiction N2; reflexivity].
    destruct (lookup (lit "shouldDisplay") props) as [flag|] eqn:S;
      [|contradiction N2; reflexivity].
    destruct (ToBoolean flag) eqn:F; [|contradiction N2; reflexivity].
    exists props, type, flag.
    split; [reflexivity|]. split; [exact T|]. split; [exact S|].
    split; [exact F|]. split; [|reflexivity].
    destruct (knownType type) eqn:K; [reflexivity|].
    contradiction N2. apply messageForType_generic_iff. exact K.
  - intros (props & type & flag & -> & T & S & F & K & ->).
    rewrite renderError_object, T, S, F.
    split; [reflexivity|]. split; [apply messageForType_not_null|].
    intro G. apply messageForType_generic_iff in G. congruence.
Qed.

(** X20. The fallback the tab hands to the tile grid is never [null]: it
    is [undefined] exactly when there is no (truthy) error and an element
    otherwise, so the [null] branch of [renderError] is never taken from
    here.  Computing it throws only when [renderError] throws on a truthy
    error, which takes an object with an accessor or a proxy; on plain
    values it always yields a fallback. *)
Theorem errorFallback_never_null :
  forall (O : ObjectModel) (error : any),
    (forall fallback,
        errorFallbackWith O error = Some fallback ->
        fallback <> Some RenderedNull /\
        (fallback = None <-> ToBoolean error = false)) /\
    (errorFallbackWith O error = None ->
     ToBoolean error = true /\ renderErrorWith O error = None) /\
    (exists fallback,
        errorFallbackWith plain error = Some fallback /\
        errorFallback error = Some fallback).
Proof.
  intros O error. unfold errorFallbackWith, errorFallback.
  destruct (ToBoolean error) eqn:B.
  - split; [|split].
    + intros fallback H.
      destruct (renderErrorWith O error) as [r|] eqn:R; [|discriminate H].
      injection H as <-. split; [|split; discriminate].
      intro N. injection N as N.
      apply (renderErrorWith_null_iff O error r R) in N. congruence.
    + intro H. split; [reflexivity|].
      destruct (renderErrorWith O error); [discriminate H|reflexivity].
    + destruct (renderError_plain error) as [r [E _]].
      change (renderErrorWith plain error) with (renderError error).
      rewrite E. eexists. split; reflexivity.
  - split; [|split].
    + intros fallback H. injection H as <-.
      split; [discriminate|split; reflexivity].
    + discriminate.
    + eexists. split; reflexivity.
Qed.

End ErrorDisplay.
